(** * Audio transcriber bot (main.py): a shallow embedding and its properties

    The program is a Telegram bot whose audio handler downloads a voice or
    audio attachment, re-encodes it as WAV (pydub), sends the WAV to a
    generative model (google.generativeai) and replies with the model's text.

    The embedding follows main.py method by method.  Calls into the two SDKs
    and into pydub are recorded, with their outcome, in a history of events;
    the Python exceptions are an explicit [Raise] result, and [try/except] is
    a combinator of the monad the handlers run in. *)

From Stdlib Require Import List String Ascii NArith Bool Arith Lia.
From Stdlib.Strings Require Import Byte.
Import ListNotations.
Local Open Scope string_scope.
Local Open Scope list_scope.

(** Python's [+] on [str] (and the pieces of an f-string). *)
Infix "+++" := String.append (right associativity, at level 60).

(** ** Python values *)

Definition bytes := list byte.

(** An exception object: its class name and the text [str(e)] gives.  Every
    exception modelled here is an instance of [Exception], the class the two
    [except] clauses of main.py catch. *)
Record Exception := mkException {
  exc_class : string;
  exc_str : string
}.

Inductive Result (A : Type) : Type :=
| Ok (a : A)
| Raise (e : Exception).
Arguments Ok {A} a.
Arguments Raise {A} e.

Definition nl : string := String (ascii_of_nat 10) EmptyString.

(** ** base64.b64encode(...).decode() *)
Module Base64.

Definition alphabet : list ascii :=
  list_ascii_of_string
    "ABCDEFGHIJKLMNOPQRSTUVWXYZabcdefghijklmnopqrstuvwxyz0123456789+/".

Definition digit (n : N) : ascii :=
  nth (N.to_nat n) alphabet "="%char.

Definition pad : ascii := "="%char.

Definition sextet (n : N) (k : N) : ascii :=
  digit (N.land (N.shiftr n (6 * k)) 63).

Fixpoint b64encode (s : bytes) : string :=
  match s with
  | [] => EmptyString
  | [a] =>
      let n := N.shiftl (Byte.to_N a) 16 in
      String (sextet n 3) (String (sextet n 2)
        (String pad (String pad EmptyString)))
  | [a; b] =>
      let n := N.lor (N.shiftl (Byte.to_N a) 16) (N.shiftl (Byte.to_N b) 8) in
      String (sextet n 3) (String (sextet n 2)
        (String (sextet n 1) (String pad EmptyString)))
  | a :: b :: c :: rest =>
      let n := N.lor (N.lor (N.shiftl (Byte.to_N a) 16)
                            (N.shiftl (Byte.to_N b) 8)) (Byte.to_N c) in
      String (sextet n 3) (String (sextet n 2)
        (String (sextet n 1) (String (sextet n 0) (b64encode rest))))
  end.

End Base64.

(** ** io.BytesIO *)
Module BytesIO.

Record t := mk {
  buf : bytes;
  pos : nat;
  closed : bool
}.

(** [io.BytesIO()] and [io.BytesIO(initial)]: position 0. *)
Definition empty : t := mk [] 0 false.
Definition of_bytes (b : bytes) : t := mk b 0 false.

Definition closed_error : Exception :=
  mkException "ValueError" "I/O operation on closed file.".

(** [f.read()]: everything from the position to the end; the position moves
    to the end. *)
Definition read (f : t) : Result (bytes * t) :=
  if closed f then Raise closed_error
  else Ok (skipn (pos f) (buf f),
           mk (buf f) (Nat.max (pos f) (List.length (buf f))) false).

(** [f.write(data)]: overwrites from the position on, zero-filling a gap;
    writing no bytes changes nothing. *)
Definition write (f : t) (data : bytes) : Result t :=
  if closed f then Raise closed_error
  else
    match data with
    | [] => Ok f
    | _ :: _ =>
        let gap := repeat x00 (pos f - List.length (buf f)) in
        Ok (mk (firstn (pos f) (buf f) ++ gap ++ data
                  ++ skipn (pos f + List.length data) (buf f))
               (pos f + List.length data) false)
    end.

(** [f.seek(n)]. *)
Definition seek (f : t) (n : nat) : Result t :=
  if closed f then Raise closed_error
  else Ok (mk (buf f) n false).

End BytesIO.

(** ** The SDK objects the handlers touch *)

(** telegram.Voice and telegram.Audio: what [get_file] needs. *)
Record Voice := mkVoice { voice_file_id : string }.
Record Audio := mkAudio { audio_file_id : string }.

(** telegram.Message, both for the incoming message and for the messages
    [reply_text] returns. *)
Record Message := mkMessage {
  message_id : nat;
  voice : option Voice;
  audio : option Audio
}.

(** telegram.Update: [update.message] is [None] for updates that are not
    new messages. *)
Record Update := mkUpdate { message : option Message }.

(** telegram.File *)
Record File := mkFile { file_id : string; file_path : string }.

Inductive Attachment :=
| OfVoice (v : Voice)
| OfAudio (a : Audio).

(** pydub.AudioSegment: decoded samples and their layout. *)
Record AudioSegment := mkAudioSegment {
  raw_data : bytes;
  sample_width : N;
  frame_rate : N;
  channels : N
}.

(** One entry of the [parts] list handed to [generate_content]. *)
Inductive Part :=
| InlineData (mime_type : string) (data : string)
| Text (text : string).

(** The response of [generate_content]; reading [response.text] raises when
    the response carries no text. *)
Record Response := mkResponse { response_text : Result string }.

(** ** Events: every call that leaves the program, with its outcome *)
Inductive Event :=
| EvReplyText (to : Message) (text : string) (r : Result Message)
| EvGetFile (att : Attachment) (r : Result File)
| EvDownload (f : File) (r : Result bytes)
| EvFromFile (src : BytesIO.t) (r : Result AudioSegment)
| EvExport (seg : AudioSegment) (format : string) (r : Result bytes)
| EvGenerateContent (model : string) (parts : list Part) (r : Result Response)
| EvDelete (m : Message) (r : Result unit)
| EvLogError (text : string).

(** pydub: decoding of any container and encoding to a named format, as
    functions of their input. *)
Record Pydub := mkPydub {
  decode : bytes -> Result AudioSegment;
  encode : AudioSegment -> string -> Result bytes
}.

(** The two remote services.  The outcome of a call may depend on everything
    that happened before it. *)
Record Network := mkNetwork {
  send_message : list Event -> Message -> string -> Result Message;
  get_file : list Event -> Attachment -> Result File;
  download_as_bytearray : list Event -> File -> Result bytes;
  delete_message : list Event -> Message -> Result unit;
  generate_content : list Event -> string -> list Part -> Result Response
}.

(** ** The program's objects *)

(** What an attribute of an object may hold. *)
Inductive PyValue :=
| PyNone
| PyStr (s : string)
| PyBytes (b : bytes).

(** The instance dictionary of an object: the attributes that were
    assigned on it, by name. *)
Definition Attrs := list (string * PyValue).

(** [class AudioTranscriber]: the class declares no attribute; like every
    instance of a Python class, its instances take whatever attributes are
    assigned on them. *)
Record AudioTranscriber := mkAudioTranscriber {
  transcriber_attrs : Attrs
}.

(** [class TelegramBot]: [self.transcriber], and the other attributes of the
    instance. *)
Record TelegramBot := mkTelegramBot {
  transcriber : AudioTranscriber;
  bot_attrs : Attrs
}.

(** [AudioTranscriber()] *)
Definition new_AudioTranscriber : AudioTranscriber := mkAudioTranscriber [].

(** [TelegramBot()]: [__init__] assigns [self.transcriber]. *)
Definition new_TelegramBot : TelegramBot :=
  mkTelegramBot new_AudioTranscriber [].

(** The state a handler runs in: the bot object and the history of calls. *)
Record State := mkState {
  bot : TelegramBot;
  history : list Event
}.

(** ** The monad of the handlers: state and exceptions *)
Definition M (A : Type) : Type := State -> Result A * State.

Definition ret {A} (a : A) : M A := fun st => (Ok a, st).

Definition raise {A} (e : Exception) : M A := fun st => (Raise e, st).

Definition bind {A B} (m : M A) (f : A -> M B) : M B :=
  fun st =>
    match m st with
    | (Ok a, st') => f a st'
    | (Raise e, st') => (Raise e, st')
    end.

Notation "x <- m ;; k" := (bind m (fun x => k))
  (at level 61, m at next level, right associativity).
Notation "m ;;; k" := (bind m (fun _ => k))
  (at level 61, right associativity).

(** [try: body except Exception as e: handler e].  The values of
    [Exception] are the instances of Python's [Exception], so every [Raise]
    is caught; a [BaseException] that is not an [Exception] (the
    cancellation of the task at an [await]) is not a value of [Exception],
    and the runs in which one arises are not among the runs described
    here. *)
Definition try_except {A} (body : M A) (handler : Exception -> M A) : M A :=
  fun st =>
    match body st with
    | (Ok a, st') => (Ok a, st')
    | (Raise e, st') => handler e st'
    end.

Definition lift {A} (r : Result A) : M A := fun st => (r, st).

(** A call that leaves the program: its outcome is read off the history so
    far and the call is appended to the history. *)
Definition perform {A} (outcome : list Event -> Result A)
    (ev : Result A -> Event) : M A :=
  fun st =>
    let r := outcome (history st) in
    (r, mkState (bot st) (history st ++ [ev r])).

(** The bot object a bound method receives as [self]. *)
Definition get_self : M TelegramBot := fun st => (Ok (bot st), st).

(** The events a computation adds to the history. *)
Definition trace_of {A} (m : M A) (st : State) : list Event :=
  skipn (List.length (history st)) (history (snd (m st))).

Definition result_of {A} (m : M A) (st : State) : Result A := fst (m st).

(** Attribute access on [None]. *)
Definition none_has_no (attr : string) : Exception :=
  mkException "AttributeError"
    ("'NoneType' object has no attribute '" +++ attr +++ "'").

(** ** String constants of main.py *)

Definition MIME_WAV : string := "audio/wav".
Definition MODEL_NAME : string := "gemini-1.5-pro".

Definition indent : string := "                    ".

Definition PROMPT : string :=
  "Please transcribe this audio." +++ nl +++
  indent +++ nl +++
  indent +++ "If the audio is in English:" +++ nl +++
  indent +++ "- Provide ONLY the transcription, nothing else" +++ nl +++
  indent +++ nl +++
  indent +++ "If the audio is NOT in English:" +++ nl +++
  indent +++ "Original: [transcription in original language]" +++ nl +++
  indent +++ "Translation: [English translation]".

Definition welcome_message : string :=
  "👋 Welcome to the Audio Transcriber Bot!" +++ nl +++ nl +++
  "Send me any voice message or audio file, and I'll transcribe it for you."
  +++ nl +++
  "If the audio is in Russian or another language, I'll provide an English translation too!".

Definition help_message : string :=
  "🎯 Here's how to use the bot:" +++ nl +++ nl +++
  "1. Send any voice message or audio file" +++ nl +++
  "2. Wait for processing (this may take a moment)" +++ nl +++
  "3. Receive your transcription and translation" +++ nl +++ nl +++
  "Commands:" +++ nl +++
  "/start - Start the bot" +++ nl +++
  "/help - Show this help message".

Definition PROCESSING : string := "🎵 Processing your audio... Please wait.".

Definition TRANSCRIPTION_HEADER : string :=
  "📝 Transcription and Translation:" +++ nl +++ nl.

Definition HANDLER_ERROR : string :=
  "❌ Sorry, there was an error processing your audio: ".

Definition TRANSCRIBE_ERROR : string := "Error transcribing audio: ".

(** ** main.py *)
Section Program.

Variable pydub : Pydub.
Variable net : Network.

(** [logger.error(text)] *)
Definition logger_error (text : string) : M unit :=
  perform (fun _ => Ok tt) (fun _ => EvLogError text).

(** [update.message] followed by an attribute access. *)
Definition update_message (update : Update) (attr : string) : M Message :=
  match message update with
  | Some m => ret m
  | None => raise (none_has_no attr)
  end.

(** [await message.reply_text(text)] *)
Definition reply_text (m : Message) (text : string) : M Message :=
  perform (fun h => send_message net h m text) (EvReplyText m text).

(** [await attachment.get_file()] *)
Definition attachment_get_file (a : Attachment) : M File :=
  perform (fun h => get_file net h a) (EvGetFile a).

(** [await message.delete()] *)
Definition message_delete (m : Message) : M unit :=
  perform (fun h => delete_message net h m) (EvDelete m).

(** [AudioSegment.from_file(f)]: reads the stream and decodes it. *)
Definition AudioSegment_from_file (f : BytesIO.t) : M AudioSegment :=
  perform
    (fun _ =>
       match BytesIO.read f with
       | Ok (data, _) => decode pydub data
       | Raise e => Raise e
       end)
    (EvFromFile f).

(** [audio.export(out_f, format=...)]: encodes and writes to [out_f]. *)
Definition AudioSegment_export (seg : AudioSegment) (out_f : BytesIO.t)
    (format : string) : M BytesIO.t :=
  data <- perform (fun _ => encode pydub seg format) (EvExport seg format) ;;
  lift (BytesIO.write out_f data).

(** *** class AudioTranscriber *)

Definition download_audio_file (self : AudioTranscriber) (file : File)
    : M BytesIO.t :=
  binary <- perform (fun h => download_as_bytearray net h file)
                    (EvDownload file) ;;
  ret (BytesIO.of_bytes binary).

Definition convert_to_wav (self : AudioTranscriber) (audio_data : BytesIO.t)
    : M BytesIO.t :=
  audio <- AudioSegment_from_file audio_data ;;
  let wav_io := BytesIO.empty in
  wav_io <- AudioSegment_export audio wav_io "wav" ;;
  wav_io <- lift (BytesIO.seek wav_io 0) ;;
  ret wav_io.

Definition transcribe_audio (self : AudioTranscriber) (audio_file : BytesIO.t)
    : M string :=
  try_except
    (rd <- lift (BytesIO.read audio_file) ;;
     let audio_bytes := fst rd in
     let audio_b64 := Base64.b64encode audio_bytes in
     let model := MODEL_NAME in
     let parts := [InlineData MIME_WAV audio_b64; Text PROMPT] in
     response <- perform (fun h => generate_content net h model parts)
                         (EvGenerateContent model parts) ;;
     lift (response_text response))
    (fun e =>
       logger_error ("Transcription error: " +++ exc_str e) ;;;
       ret (TRANSCRIBE_ERROR +++ exc_str e)).

Definition process_audio (self : AudioTranscriber) (audio_file : BytesIO.t)
    : M string :=
  wav_file <- convert_to_wav self audio_file ;;
  transcription <- transcribe_audio self wav_file ;;
  ret transcription.

(** *** class TelegramBot

    The handlers' [context] argument is used by none of them and is left
    out. *)

(** [__init__] on the bot object of the state: [self.transcriber =
    AudioTranscriber()], the one assignment to an attribute in main.py. *)
Definition TelegramBot_init : M unit :=
  fun st =>
    (Ok tt,
     mkState (mkTelegramBot new_AudioTranscriber (bot_attrs (bot st)))
       (history st)).

Definition start (update : Update) : M unit :=
  m <- update_message update "reply_text" ;;
  reply_text m welcome_message ;;;
  ret tt.

Definition help (update : Update) : M unit :=
  m <- update_message update "reply_text" ;;
  reply_text m help_message ;;;
  ret tt.

(** The statements of the [try] block of [handle_audio] up to and including
    the reply that carries the transcription (lines 113 to 130); the value
    is [processing_message]. *)
Definition handle_audio_reply (update : Update) : M Message :=
  m <- update_message update "reply_text" ;;
  processing_message <- reply_text m PROCESSING ;;
  file <- match voice m with
          | Some v => attachment_get_file (OfVoice v)
          | None =>
              match audio m with
              | Some a => attachment_get_file (OfAudio a)
              | None => raise (none_has_no "get_file")
              end
          end ;;
  self <- get_self ;;
  audio_data <- download_audio_file (transcriber self) file ;;
  transcription <- process_audio (transcriber self) audio_data ;;
  reply_text m (TRANSCRIPTION_HEADER +++ transcription) ;;;
  ret processing_message.

Definition handle_audio (update : Update) : M unit :=
  try_except
    (processing_message <- handle_audio_reply update ;;
     message_delete processing_message)
    (fun e =>
       logger_error ("Error processing audio: " +++ exc_str e) ;;;
       m <- update_message update "reply_text" ;;
       reply_text m (HANDLER_ERROR +++ exc_str e) ;;;
       ret tt).

End Program.

(** ** Vocabulary of the properties *)

(** [s] starts with [p]. *)
Fixpoint starts_with (p s : string) : bool :=
  match p, s with
  | EmptyString, _ => true
  | String a p', String b s' => Ascii.eqb a b && starts_with p' s'
  | String _ _, EmptyString => false
  end.

(** [sub] occurs in [s]. *)
Definition contains (sub s : string) : Prop :=
  exists pre post, s = pre +++ sub +++ post.

(** The steps of the pipeline; transcoding is pydub's decoding of the input
    followed by its export as WAV. *)
Inductive Step := SDownload | SDecode | SExport | SApiCall | SReply.

Definition pipeline_order : list Step :=
  [SDownload; SDecode; SExport; SApiCall; SReply].

(** The step an event belongs to.  The reply of the pipeline is the message
    that carries the transcription header; the processing notice and the
    error notice are not steps of the pipeline. *)
Definition step_of (e : Event) : option Step :=
  match e with
  | EvDownload _ _ => Some SDownload
  | EvFromFile _ _ => Some SDecode
  | EvExport _ _ _ => Some SExport
  | EvGenerateContent _ _ _ => Some SApiCall
  | EvReplyText _ text _ =>
      if starts_with TRANSCRIPTION_HEADER text then Some SReply else None
  | _ => None
  end.

Fixpoint pipeline_steps (tr : list Event) : list Step :=
  match tr with
  | [] => []
  | e :: tr' =>
      match step_of e with
      | Some s => s :: pipeline_steps tr'
      | None => pipeline_steps tr'
      end
  end.

(** A computation leaves the bot object as it is and only appends to the
    history. *)
Definition frames {A} (m : M A) : Prop :=
  forall st,
    bot (snd (m st)) = bot st /\
    exists evs, history (snd (m st)) = history st ++ evs.

(** Two computations do the same on states with the same history, whatever
    the bot objects of the states: same result, same calls. *)
Definition agree {A} (m m' : M A) : Prop :=
  forall st st',
    history st = history st' ->
    fst (m st) = fst (m' st') /\
    history (snd (m st)) = history (snd (m' st')).

(** The exception [e] was raised by the download, by the transcoding or by
    the call of the model (reading the text of its response included). *)
Definition step_failed (tr : list Event) (e : Exception) : Prop :=
  (exists f, In (EvDownload f (Raise e)) tr) \/
  (exists src, In (EvFromFile src (Raise e)) tr) \/
  (exists seg fmt, In (EvExport seg fmt (Raise e)) tr) \/
  (exists mdl parts, In (EvGenerateContent mdl parts (Raise e)) tr) \/
  (exists mdl parts resp,
      In (EvGenerateContent mdl parts (Ok resp)) tr /\
      response_text resp = Raise e).

(** [sub] occurs in [s], as a computation. *)
Fixpoint occurs_in (sub s : string) : bool :=
  starts_with sub s ||
  match s with
  | EmptyString => false
  | String _ s' => occurs_in sub s'
  end.

(** The two labels the prompt asks the model to use for audio that is not
    in English. *)
Definition ORIGINAL_LABEL : string := "Original: ".
Definition TRANSLATION_LABEL : string := "Translation: ".

(** What a relayed text would have to look like for audio of a given
    language: both labelled parts for audio that is not in English, no
    translation for English audio. *)
Definition relay_matches_language (non_english : bool) (body : string) : Prop :=
  if non_english
  then occurs_in ORIGINAL_LABEL body = true /\
       occurs_in TRANSLATION_LABEL body = true
  else occurs_in TRANSLATION_LABEL body = false.

(** The handler relays, for audio of every language, a text of the form
    that language calls for, whatever assignment [non_english] of a language
    to the downloaded bytes is the true one. *)
Definition relays_by_language (non_english : bytes -> bool) : Prop :=
  forall pydub net u st f b m body sent,
    In (EvDownload f (Ok b)) (trace_of (handle_audio pydub net u) st) ->
    In (EvReplyText m (TRANSCRIPTION_HEADER +++ body) (Ok sent))
       (trace_of (handle_audio pydub net u) st) ->
    relay_matches_language (non_english b) body.

(** ** Concrete services, to run the handlers on *)
Module Demo.

Definition riff : bytes := ["R"%byte; "I"%byte; "F"%byte; "F"%byte].

Definition pydub : Pydub :=
  mkPydub (fun b => Ok (mkAudioSegment b 2%N 16000%N 1%N))
          (fun seg _ => Ok (riff ++ raw_data seg)).

Definition ogg : bytes := ["O"%byte; "g"%byte; "g"%byte; "S"%byte].

Definition timeout : Exception := mkException "TimedOut" "Timed out".
Definition quota : Exception :=
  mkException "ResourceExhausted" "429 quota exceeded".

(** Telegram answers every call; the download and the model are given. *)
Definition net (dl : Result bytes) (api : Result Response) : Network :=
  mkNetwork
    (fun h _ _ => Ok (mkMessage (100 + List.length h) None None))
    (fun _ a =>
       match a with
       | OfVoice v => Ok (mkFile (voice_file_id v) "voice/file_0.oga")
       | OfAudio a => Ok (mkFile (audio_file_id a) "music/file_1.mp3")
       end)
    (fun _ _ => dl)
    (fun _ _ => Ok tt)
    (fun _ _ _ => api).

Definition hello : Response := mkResponse (Ok "hello").
Definition hola : Response := mkResponse (Ok "hola").
Definition bilingual : Response :=
  mkResponse (Ok ("Original: hola" +++ nl +++ "Translation: hello")).
Definition blocked : Response :=
  mkResponse (Raise (mkException "ValueError" "no valid Part")).

Definition voice_note : Voice := mkVoice "voice-1".
Definition song : Audio := mkAudio "audio-1".

Definition voice_update : Update :=
  mkUpdate (Some (mkMessage 7 (Some voice_note) None)).
Definition both_update : Update :=
  mkUpdate (Some (mkMessage 8 (Some voice_note) (Some song))).
Definition audio_update : Update :=
  mkUpdate (Some (mkMessage 9 None (Some song))).

Definition st0 : State := mkState new_TelegramBot [].

(** A state reached after an earlier update. *)
Definition st1 : State :=
  mkState new_TelegramBot
    [EvReplyText (mkMessage 3 None None) help_message
       (Ok (mkMessage 100 None None))].

Definition wav : bytes := riff ++ ogg.

Definition request : list Part :=
  [InlineData MIME_WAV (Base64.b64encode wav); Text PROMPT].

Definition voice_file : File := mkFile "voice-1" "voice/file_0.oga".

Definition ok_net : Network := net (Ok ogg) (Ok hello).
Definition no_download_net : Network := net (Raise timeout) (Ok hello).
Definition no_model_net : Network := net (Ok ogg) (Raise quota).

End Demo.

(** ** Vocabulary of the runs *)

(** The attachment the branch on [update.message.voice] chooses. *)
Definition chosen_attachment (m : Message) : option Attachment :=
  match voice m with
  | Some v => Some (OfVoice v)
  | None =>
      match audio m with
      | Some a => Some (OfAudio a)
      | None => None
      end
  end.

Fixpoint last_event (tr : list Event) : option Event :=
  match tr with
  | [] => None
  | [e] => Some e
  | _ :: tr' => last_event tr'
  end.

Definition is_model_call (e : Event) : bool :=
  match e with
  | EvGenerateContent _ _ _ => true
  | _ => false
  end.

Definition is_reply (e : Event) : bool :=
  match e with
  | EvReplyText _ _ _ => true
  | _ => false
  end.

(** The call recorded by the event raised. *)
Definition raised (e : Event) : bool :=
  match e with
  | EvReplyText _ _ (Raise _)
  | EvGetFile _ (Raise _)
  | EvDownload _ (Raise _)
  | EvFromFile _ (Raise _)
  | EvExport _ _ (Raise _)
  | EvGenerateContent _ _ (Raise _)
  | EvDelete _ (Raise _) => true
  | _ => false
  end.

Definition count_model_calls (tr : list Event) : nat :=
  List.length (filter is_model_call tr).

(** The events of [transcribe_audio] on a rewound stream that holds [wav],
    and the text it returns. *)
Inductive Transcribed (wav : bytes) : list Event -> string -> Prop :=
| transcribed_text resp t :
    response_text resp = Ok t ->
    Transcribed wav
      [EvGenerateContent MODEL_NAME
         [InlineData MIME_WAV (Base64.b64encode wav); Text PROMPT] (Ok resp)]
      t
| transcribed_no_text resp e :
    response_text resp = Raise e ->
    Transcribed wav
      [EvGenerateContent MODEL_NAME
         [InlineData MIME_WAV (Base64.b64encode wav); Text PROMPT] (Ok resp);
       EvLogError ("Transcription error: " +++ exc_str e)]
      (TRANSCRIBE_ERROR +++ exc_str e)
| transcribed_call_fails e :
    Transcribed wav
      [EvGenerateContent MODEL_NAME
         [InlineData MIME_WAV (Base64.b64encode wav); Text PROMPT] (Raise e);
       EvLogError ("Transcription error: " +++ exc_str e)]
      (TRANSCRIBE_ERROR +++ exc_str e).

(** The events of the [except] block of [handle_audio] for the exception
    [e], on a message [m], and the result of the handler. *)
Inductive Reported (m : Message) (e : Exception)
  : list Event -> Result unit -> Prop :=
| reported_sent sent :
    Reported m e
      [EvLogError ("Error processing audio: " +++ exc_str e);
       EvReplyText m (HANDLER_ERROR +++ exc_str e) (Ok sent)]
      (Ok tt)
| reported_unsent e' :
    Reported m e
      [EvLogError ("Error processing audio: " +++ exc_str e);
       EvReplyText m (HANDLER_ERROR +++ exc_str e) (Raise e')]
      (Raise e').

(** The runs of [handle_audio] on an update whose message is [m]: the
    events of the run and its result, one constructor for each statement
    of the [try] block at which the run can leave it. *)
Inductive AudioRun (pydub : Pydub) (m : Message)
  : list Event -> Result unit -> Prop :=
| left_at_notice e k res :
    Reported m e k res ->
    AudioRun pydub m (EvReplyText m PROCESSING (Raise e) :: k) res
| left_without_attachment pm k res :
    chosen_attachment m = None ->
    Reported m (none_has_no "get_file") k res ->
    AudioRun pydub m (EvReplyText m PROCESSING (Ok pm) :: k) res
| left_at_get_file pm att e k res :
    chosen_attachment m = Some att ->
    Reported m e k res ->
    AudioRun pydub m
      (EvReplyText m PROCESSING (Ok pm) :: EvGetFile att (Raise e) :: k) res
| left_at_download pm att f e k res :
    chosen_attachment m = Some att ->
    Reported m e k res ->
    AudioRun pydub m
      (EvReplyText m PROCESSING (Ok pm) :: EvGetFile att (Ok f)
         :: EvDownload f (Raise e) :: k) res
| left_at_decode pm att f b e k res :
    chosen_attachment m = Some att ->
    decode pydub b = Raise e ->
    Reported m e k res ->
    AudioRun pydub m
      (EvReplyText m PROCESSING (Ok pm) :: EvGetFile att (Ok f)
         :: EvDownload f (Ok b)
         :: EvFromFile (BytesIO.of_bytes b) (Raise e) :: k) res
| left_at_export pm att f b seg e k res :
    chosen_attachment m = Some att ->
    decode pydub b = Ok seg ->
    encode pydub seg "wav" = Raise e ->
    Reported m e k res ->
    AudioRun pydub m
      (EvReplyText m PROCESSING (Ok pm) :: EvGetFile att (Ok f)
         :: EvDownload f (Ok b)
         :: EvFromFile (BytesIO.of_bytes b) (Ok seg)
         :: EvExport seg "wav" (Raise e) :: k) res
| left_at_reply pm att f b seg wav tevs t e k res :
    chosen_attachment m = Some att ->
    decode pydub b = Ok seg ->
    encode pydub seg "wav" = Ok wav ->
    Transcribed wav tevs t ->
    Reported m e k res ->
    AudioRun pydub m
      (EvReplyText m PROCESSING (Ok pm) :: EvGetFile att (Ok f)
         :: EvDownload f (Ok b)
         :: EvFromFile (BytesIO.of_bytes b) (Ok seg)
         :: EvExport seg "wav" (Ok wav)
         :: tevs
         ++ EvReplyText m (TRANSCRIPTION_HEADER +++ t) (Raise e) :: k) res
| left_at_delete pm att f b seg wav tevs t sent e k res :
    chosen_attachment m = Some att ->
    decode pydub b = Ok seg ->
    encode pydub seg "wav" = Ok wav ->
    Transcribed wav tevs t ->
    Reported m e k res ->
    AudioRun pydub m
      (EvReplyText m PROCESSING (Ok pm) :: EvGetFile att (Ok f)
         :: EvDownload f (Ok b)
         :: EvFromFile (BytesIO.of_bytes b) (Ok seg)
         :: EvExport seg "wav" (Ok wav)
         :: tevs
         ++ EvReplyText m (TRANSCRIPTION_HEADER +++ t) (Ok sent)
         :: EvDelete pm (Raise e) :: k) res
| completed pm att f b seg wav tevs t sent :
    chosen_attachment m = Some att ->
    decode pydub b = Ok seg ->
    encode pydub seg "wav" = Ok wav ->
    Transcribed wav tevs t ->
    AudioRun pydub m
      (EvReplyText m PROCESSING (Ok pm) :: EvGetFile att (Ok f)
         :: EvDownload f (Ok b)
         :: EvFromFile (BytesIO.of_bytes b) (Ok seg)
         :: EvExport seg "wav" (Ok wav)
         :: tevs
         ++ [EvReplyText m (TRANSCRIPTION_HEADER +++ t) (Ok sent);
             EvDelete pm (Ok tt)]) (Ok tt).

(** The three handlers [run] registers. *)
Inductive Handler := OnStart | OnHelp | OnAudio.

Definition is_audio_handler (h : Handler) : bool :=
  match h with
  | OnAudio => true
  | _ => false
  end.

Section Application.

Variable pydub : Pydub.
Variable net : Network.

(** The callback registered for a handler, called on an update. *)
Definition invoke (h : Handler) (update : Update) : M unit :=
  match h with
  | OnStart => start net update
  | OnHelp => help net update
  | OnAudio => handle_audio pydub net update
  end.

(** The application serving a sequence of updates, each with the handler
    whose filter it passed: one update at a time, and an exception of a
    handler does not stop the application. *)
Fixpoint serve (updates : list (Handler * Update)) (st : State) : State :=
  match updates with
  | [] => st
  | (h, u) :: rest => serve rest (snd (invoke h u st))
  end.

End Application.

Definition count_audio (updates : list (Handler * Update)) : nat :=
  List.length (filter (fun hu => is_audio_handler (fst hu)) updates).

(** ** More concrete services and inputs *)
Module Scenario.

(** Telegram refuses the deletion of messages. *)
Definition no_delete_net : Network :=
  mkNetwork
    (send_message Demo.ok_net)
    (get_file Demo.ok_net)
    (download_as_bytearray Demo.ok_net)
    (fun _ _ => Raise Demo.timeout)
    (generate_content Demo.ok_net).

(** Telegram refuses everything. *)
Definition offline_net : Network :=
  mkNetwork
    (fun _ _ _ => Raise Demo.timeout)
    (fun _ _ => Raise Demo.timeout)
    (fun _ _ => Raise Demo.timeout)
    (fun _ _ => Raise Demo.timeout)
    (fun _ _ _ => Raise Demo.quota).

Definition undecodable : Exception :=
  mkException "CouldntDecodeError" "Decoding failed".

Definition deaf_pydub : Pydub :=
  mkPydub (fun _ => Raise undecodable) (encode Demo.pydub).

Definition bare_message : Message := mkMessage 10 None None.
Definition bare_update : Update := mkUpdate (Some bare_message).
Definition voice_message : Message := mkMessage 7 (Some Demo.voice_note) None.

(** Telegram sends the first message of a fresh history and refuses every
    later one; the download breaks off. *)
Definition reset : Exception :=
  mkException "NetworkError" "Connection reset".

Definition flaky_net : Network :=
  mkNetwork
    (fun h _ _ =>
       match h with
       | [] => Ok (mkMessage 100 None None)
       | _ :: _ => Raise Demo.timeout
       end)
    (get_file Demo.ok_net)
    (fun _ _ => Raise reset)
    (fun _ _ => Ok tt)
    (generate_content Demo.ok_net).

(** A state whose bot and transcriber hold attributes. *)
Definition stocked : State :=
  mkState
    (mkTelegramBot (mkAudioTranscriber [("last_audio", PyBytes Demo.ogg)])
       [("last_transcription", PyStr "hello")])
    [].

Definition half_read : BytesIO.t := BytesIO.mk Demo.wav 4 false.
Definition closed_stream : BytesIO.t := BytesIO.mk Demo.wav 0 true.

End Scenario.

Arguments trace_of {A} m st /.
Arguments result_of {A} m st /.

(** ** Streams: what the pipeline reads back *)

Lemma skipn_nil_any {A} (n : nat) : skipn n (@nil A) = [].
Proof. destruct n; reflexivity. Qed.

Lemma read_of_bytes (b : bytes) :
  BytesIO.read (BytesIO.of_bytes b)
  = Ok (b, BytesIO.mk b (List.length b) false).
Proof. reflexivity. Qed.

Lemma write_empty (data : bytes) :
  BytesIO.write BytesIO.empty data
  = Ok (BytesIO.mk data (List.length data) false).
Proof.
  destruct data as [| x data]; [reflexivity |].
  unfold BytesIO.write, BytesIO.empty; cbn.
  now rewrite ?skipn_nil_any, ?app_nil_r.
Qed.

Lemma seek_open (d : bytes) (p n : nat) :
  BytesIO.seek (BytesIO.mk d p false) n = Ok (BytesIO.mk d n false).
Proof. reflexivity. Qed.

Lemma read_rewound (d : bytes) :
  BytesIO.read (BytesIO.mk d 0 false)
  = Ok (d, BytesIO.mk d (List.length d) false).
Proof. reflexivity. Qed.

Lemma skipn_app_exact {A} (h l : list A) : skipn (List.length h) (h ++ l) = l.
Proof. induction h; simpl; auto. Qed.

(** ** Strings *)

Lemma append_empty_r (s : string) : s +++ "" = s.
Proof. induction s; simpl; congruence. Qed.

Lemma append_assoc (a b c : string) : (a +++ b) +++ c = a +++ b +++ c.
Proof. induction a; simpl; congruence. Qed.

Lemma contains_suffix (pre sub : string) : contains sub (pre +++ sub).
Proof. exists pre, ""; now rewrite append_empty_r. Qed.

Lemma contains_app_l (p sub s : string) :
  contains sub s -> contains sub (p +++ s).
Proof.
  intros (pre & post & ->). exists (p +++ pre), post.
  now rewrite append_assoc.
Qed.

Lemma starts_with_app (p s : string) : starts_with p (p +++ s) = true.
Proof.
  induction p; simpl; auto.
  now rewrite Ascii.eqb_refl, IHp.
Qed.

Lemma contains_occurs (sub s : string) :
  contains sub s -> occurs_in sub s = true.
Proof.
  intros (pre & post & ->). induction pre as [| c pre IH]; cbn.
  - destruct (sub +++ post) eqn:E; cbn;
      rewrite <- ?E, starts_with_app; reflexivity.
  - rewrite IH. apply orb_true_r.
Qed.

(** ** The frame of the monad's operations *)
Section Frames.

Lemma frames_ret {A} (a : A) : frames (ret a).
Proof. intros st; split; [reflexivity | exists []; simpl; now rewrite app_nil_r]. Qed.

Lemma frames_raise {A} (e : Exception) : frames (@raise A e).
Proof. intros st; split; [reflexivity | exists []; simpl; now rewrite app_nil_r]. Qed.

Lemma frames_lift {A} (r : Result A) : frames (lift r).
Proof. intros st; split; [reflexivity | exists []; simpl; now rewrite app_nil_r]. Qed.

Lemma frames_get_self : frames get_self.
Proof. intros st; split; [reflexivity | exists []; simpl; now rewrite app_nil_r]. Qed.

Lemma frames_perform {A} (o : list Event -> Result A) (ev : Result A -> Event) :
  frames (perform o ev).
Proof. intros st; split; [reflexivity | eexists; reflexivity]. Qed.

Lemma frames_bind {A B} (m : M A) (f : A -> M B) :
  frames m -> (forall a, frames (f a)) -> frames (bind m f).
Proof.
  intros Hm Hf st. unfold bind.
  destruct (Hm st) as [Hb [evs Hh]].
  destruct (m st) as [[a | e] st1]; simpl in *.
  - destruct (Hf a st1) as [Hb' [evs' Hh']].
    split; [congruence |].
    exists (evs ++ evs'). now rewrite Hh', Hh, app_assoc.
  - split; [assumption | now exists evs].
Qed.

Lemma frames_try_except {A} (body : M A) (handler : Exception -> M A) :
  frames body -> (forall e, frames (handler e)) ->
  frames (try_except body handler).
Proof.
  intros Hm Hf st. unfold try_except.
  destruct (Hm st) as [Hb [evs Hh]].
  destruct (body st) as [[a | e] st1]; simpl in *.
  - split; [assumption | now exists evs].
  - destruct (Hf e st1) as [Hb' [evs' Hh']].
    split; [congruence |].
    exists (evs ++ evs'). now rewrite Hh', Hh, app_assoc.
Qed.

End Frames.

Ltac frame_steps :=
  repeat first
    [ apply frames_bind
    | apply frames_try_except
    | apply frames_perform
    | apply frames_ret
    | apply frames_raise
    | apply frames_lift
    | apply frames_get_self
    | match goal with
      | |- forall _, _ => intro
      | |- frames (match ?x with Some _ => _ | None => _ end) => destruct x
      end ].

Section FrameOfProgram.

Variable pydub : Pydub.
Variable net : Network.

Lemma frames_update_message u attr : frames (update_message u attr).
Proof. unfold update_message; frame_steps. Qed.

Lemma frames_reply_text m text : frames (reply_text net m text).
Proof. unfold reply_text; frame_steps. Qed.

Lemma frames_logger_error text : frames (logger_error text).
Proof. unfold logger_error; frame_steps. Qed.

Lemma frames_download_audio_file self f :
  frames (download_audio_file net self f).
Proof. unfold download_audio_file; frame_steps. Qed.

Lemma frames_convert_to_wav self f : frames (convert_to_wav pydub self f).
Proof.
  unfold convert_to_wav, AudioSegment_from_file, AudioSegment_export.
  frame_steps.
Qed.

Lemma frames_transcribe_audio self f : frames (transcribe_audio net self f).
Proof.
  unfold transcribe_audio. frame_steps; apply frames_logger_error.
Qed.

Lemma frames_process_audio self f : frames (process_audio pydub net self f).
Proof.
  unfold process_audio.
  frame_steps; auto using frames_convert_to_wav, frames_transcribe_audio.
Qed.

Lemma frames_start u : frames (start net u).
Proof.
  unfold start.
  frame_steps; auto using frames_update_message, frames_reply_text.
Qed.

Lemma frames_help u : frames (help net u).
Proof.
  unfold help.
  frame_steps; auto using frames_update_message, frames_reply_text.
Qed.

Lemma frames_handle_audio_reply u : frames (handle_audio_reply pydub net u).
Proof.
  unfold handle_audio_reply, attachment_get_file.
  frame_steps;
    auto using frames_update_message, frames_reply_text,
      frames_download_audio_file, frames_process_audio.
Qed.

Lemma frames_handle_audio u : frames (handle_audio pydub net u).
Proof.
  unfold handle_audio, message_delete.
  frame_steps;
    auto using frames_update_message, frames_reply_text,
      frames_logger_error, frames_handle_audio_reply.
Qed.

Lemma frames_trace {A} (m : M A) (st : State) :
  frames m ->
  bot (snd (m st)) = bot st /\
  history (snd (m st)) = history st ++ trace_of m st.
Proof.
  intros H. destruct (H st) as [Hb [evs Hh]].
  split; [assumption |].
  unfold trace_of. now rewrite Hh, skipn_app_exact.
Qed.

End FrameOfProgram.

(** ** Computations that do not look at the bot object *)
Section Agreement.

Lemma agree_ret {A} (a : A) : agree (ret a) (ret a).
Proof. intros st st' H; split; [reflexivity | exact H]. Qed.

Lemma agree_raise {A} (e : Exception) : agree (@raise A e) (raise e).
Proof. intros st st' H; split; [reflexivity | exact H]. Qed.

Lemma agree_lift {A} (r : Result A) : agree (lift r) (lift r).
Proof. intros st st' H; split; [reflexivity | exact H]. Qed.

Lemma agree_perform {A} (o : list Event -> Result A) (ev : Result A -> Event) :
  agree (perform o ev) (perform o ev).
Proof. intros st st' H; unfold perform; cbn; now rewrite H. Qed.

Lemma agree_bind {A B} (m m' : M A) (f f' : A -> M B) :
  agree m m' -> (forall a, agree (f a) (f' a)) ->
  agree (bind m f) (bind m' f').
Proof.
  intros Hm Hf st st' H. unfold bind.
  destruct (Hm st st' H) as [Hr Hh].
  destruct (m st) as [[a | e] st1], (m' st') as [[a' | e'] st1'];
    cbn in Hr, Hh; try discriminate Hr.
  - injection Hr as <-. now apply Hf.
  - injection Hr as <-. split; [reflexivity | exact Hh].
Qed.

Lemma agree_try_except {A} (m m' : M A) (f f' : Exception -> M A) :
  agree m m' -> (forall e, agree (f e) (f' e)) ->
  agree (try_except m f) (try_except m' f').
Proof.
  intros Hm Hf st st' H. unfold try_except.
  destruct (Hm st st' H) as [Hr Hh].
  destruct (m st) as [[a | e] st1], (m' st') as [[a' | e'] st1'];
    cbn in Hr, Hh; try discriminate Hr.
  - injection Hr as <-. split; [reflexivity | exact Hh].
  - injection Hr as <-. now apply Hf.
Qed.

(** Reading [self] and going on in a way that does not depend on it. *)
Lemma agree_get_self {B} (f f' : TelegramBot -> M B) :
  (forall b b', agree (f b) (f' b')) ->
  agree (bind get_self f) (bind get_self f').
Proof. intros Hf st st' H. unfold bind, get_self. now apply Hf. Qed.

End Agreement.

Ltac agree_steps :=
  repeat first
    [ apply agree_get_self
    | apply agree_bind
    | apply agree_try_except
    | apply agree_perform
    | apply agree_ret
    | apply agree_raise
    | apply agree_lift
    | match goal with
      | |- forall _, _ => intro
      | |- agree (match ?x with Some _ => _ | None => _ end) _ => destruct x
      end ].

Section AgreementOfProgram.

Variable pydub : Pydub.
Variable net : Network.

Lemma agree_start u : agree (start net u) (start net u).
Proof. unfold start, update_message, reply_text. agree_steps. Qed.

Lemma agree_help u : agree (help net u) (help net u).
Proof. unfold help, update_message, reply_text. agree_steps. Qed.

Lemma agree_handle_audio u :
  agree (handle_audio pydub net u) (handle_audio pydub net u).
Proof.
  unfold handle_audio, handle_audio_reply, update_message.
  agree_steps.
Qed.

Lemma agree_trace {A} (m : M A) (st st' : State) :
  frames m -> agree m m ->
  history st' = history st ->
  trace_of m st' = trace_of m st /\ result_of m st' = result_of m st.
Proof.
  intros Hf Ha H. destruct (Ha st' st H) as [Hr Hh].
  split; [| exact Hr].
  destruct (frames_trace m st Hf) as [_ E].
  destruct (frames_trace m st' Hf) as [_ E'].
  rewrite E, E', H in Hh. now apply app_inv_head in Hh.
Qed.

End AgreementOfProgram.

(** ** Running a handler symbolically

    [run] unfolds the handler and splits on the outcome of each call, in the
    order in which the calls are made; every goal it leaves is one path
    through the handler, with the path's events as a literal list. *)

Ltac no_call h :=
  lazymatch h with
  | context [send_message _ _ _ _] => fail
  | context [get_file _ _ _] => fail
  | context [download_as_bytearray _ _ _] => fail
  | context [delete_message _ _ _] => fail
  | context [generate_content _ _ _ _] => fail
  | _ => idtac
  end.

Ltac unfold_program :=
  unfold handle_audio, handle_audio_reply, start, help, process_audio,
    transcribe_audio, convert_to_wav, download_audio_file,
    AudioSegment_export, AudioSegment_from_file, message_delete,
    attachment_get_file, reply_text, update_message, logger_error,
    get_self, perform, try_except, bind, lift, ret, raise.

Ltac split_call :=
  match goal with
  | |- context [message ?u] => is_var u; destruct (message u) eqn:?
  | |- context [voice ?m] => is_var m; destruct (voice m) eqn:?
  | |- context [audio ?m] => is_var m; destruct (audio m) eqn:?
  | |- context [send_message ?n ?h ?m ?t] =>
      no_call h; destruct (send_message n h m t) eqn:?
  | |- context [get_file ?n ?h ?a] =>
      no_call h; destruct (get_file n h a) eqn:?
  | |- context [download_as_bytearray ?n ?h ?f] =>
      no_call h; destruct (download_as_bytearray n h f) eqn:?
  | |- context [delete_message ?n ?h ?m] =>
      no_call h; destruct (delete_message n h m) eqn:?
  | |- context [generate_content ?n ?h ?m ?p] =>
      no_call h; destruct (generate_content n h m p) eqn:?
  | |- context [decode ?c ?b] => destruct (decode c b) eqn:?
  | |- context [encode ?c ?s ?f] => destruct (encode c s f) eqn:?
  | |- context [response_text ?r] => is_var r; destruct (response_text r) eqn:?
  end.

Ltac run :=
  unfold_program;
  repeat (cbn -[BytesIO.read BytesIO.write BytesIO.seek Base64.b64encode
                String.append skipn List.length starts_with
                PROMPT TRANSCRIPTION_HEADER HANDLER_ERROR TRANSCRIBE_ERROR
                PROCESSING MODEL_NAME MIME_WAV];
          rewrite ?read_of_bytes, ?write_empty, ?seek_open, ?read_rewound;
          try split_call);
  rewrite <- ?app_assoc, ?skipn_app_exact;
  cbn [app].

(** Membership in a literal list: splits [In e [e1; ...; en]] into its
    cases and keeps those whose constructors agree. *)
Ltac in_cases H :=
  simpl In in H;
  repeat match type of H with
         | _ \/ _ => destruct H as [H | H]
         end;
  try contradiction; try discriminate H;
  try (injection H as ?; subst).

(** Two equations on the same term: keeps what they agree on, closes the
    goal when they disagree. *)
Ltac reconcile :=
  repeat match goal with
         | H1 : ?x = ?a, H2 : ?x = ?b |- _ =>
             rewrite H1 in H2;
             first [ discriminate H2 | injection H2 as ?; subst | clear H2 ]
         | H : Ok _ = Raise _ |- _ => discriminate H
         | H : Raise _ = Ok _ |- _ => discriminate H
         | H : Ok _ = Ok _ |- _ => first [ injection H as ?; subst | clear H ]
         | H : Raise _ = Raise _ |- _ =>
             first [ injection H as ?; subst | clear H ]
         end.

Lemma in_tail_and {A} (x a : A) (l : list A) (P : Prop) :
  In x l /\ P -> In x (a :: l) /\ P.
Proof. intros [H HP]; split; [now right | assumption]. Qed.

(** [In e [e1; ...; en] /\ P]: the first [ei] for which [tac] shows [P]. *)
Ltac pick_and tac :=
  lazymatch goal with
  | |- In _ (_ :: _) /\ _ =>
      first [ solve [ split; [ left; reflexivity | tac ] ]
            | apply in_tail_and; pick_and tac ]
  end.

(** One way, at a time, of showing [In e [e1; ...; en]]. *)
Ltac pick := simpl In; ((left; reflexivity) + (right; pick)).

Section Properties.

Variable pydub : Pydub.
Variable net : Network.

Abbreviation handle_audio := (handle_audio pydub net).
Abbreviation handle_audio_reply := (handle_audio_reply pydub net).

(** *** C6: the handlers leave the program state as it is *)

(** C6.  Each of the three handlers ([/start], [/help], an audio message)
    ends with the bot object equal to the one it started with: its
    transcriber and every attribute the two objects hold, whatever they
    are.  It changes nothing else than the history, to which it appends the
    calls it made.  And what it does, the calls it makes and its result,
    does not depend on the bot object: on two states with the same history
    and any two bot objects the run is the same, so nothing that could have
    been stored on the objects is read.  No field is assigned after
    construction and nothing is kept from one update to the next. *)
Theorem C6_handlers_leave_state_unchanged (u : Update) (st : State) :
  (bot (snd (start net u st)) = bot st /\
   history (snd (start net u st)) = history st ++ trace_of (start net u) st) /\
  (bot (snd (help net u st)) = bot st /\
   history (snd (help net u st)) = history st ++ trace_of (help net u) st) /\
  (bot (snd (handle_audio u st)) = bot st /\
   history (snd (handle_audio u st))
   = history st ++ trace_of (handle_audio u) st) /\
  (forall st',
      history st' = history st ->
      (trace_of (start net u) st' = trace_of (start net u) st /\
       result_of (start net u) st' = result_of (start net u) st) /\
      (trace_of (help net u) st' = trace_of (help net u) st /\
       result_of (help net u) st' = result_of (help net u) st) /\
      (trace_of (handle_audio u) st' = trace_of (handle_audio u) st /\
       result_of (handle_audio u) st' = result_of (handle_audio u) st)).
Proof.
  split; [| split; [| split]].
  - apply (frames_trace (start net u) st), frames_start.
  - apply (frames_trace (help net u) st), frames_help.
  - apply (frames_trace (handle_audio u) st), frames_handle_audio.
  - intros st' H. split; [| split].
    + apply agree_trace; auto using frames_start, agree_start.
    + apply agree_trace; auto using frames_help, agree_help.
    + apply agree_trace;
        auto using frames_handle_audio, agree_handle_audio.
Qed.

(** *** What reaches the model *)

(** Every call of the model made by a run of [handle_audio] follows a
    download that returned some bytes [b], the only download of the run;
    its request is built from the WAV export of the decoding of [b]. *)
Lemma api_call_inv (u : Update) (st : State) mdl parts r :
  In (EvGenerateContent mdl parts r) (trace_of (handle_audio u) st) ->
  exists f b seg wav,
    In (EvDownload f (Ok b)) (trace_of (handle_audio u) st) /\
    (forall f' b', In (EvDownload f' (Ok b')) (trace_of (handle_audio u) st)
                   -> b' = b) /\
    decode pydub b = Ok seg /\
    encode pydub seg "wav" = Ok wav /\
    mdl = MODEL_NAME /\
    parts = [InlineData MIME_WAV (Base64.b64encode wav); Text PROMPT].
Proof.
  remember (trace_of (handle_audio u) st) as tr eqn:Htr.
  revert Htr. run.
  all: intros -> H; in_cases H.
  all: do 4 eexists; split; [pick |].
  all: split; [intros f' b' H'; in_cases H'; reflexivity |].
  all: repeat split; eassumption.
Qed.

(** *** C1: the order of the pipeline *)

(** C1.  In every run of the audio handler the steps of the pipeline occur
    in the order download, transcode (decode, then export), call of the
    model, reply, each at most once and none without all the earlier ones:
    the steps of the run are an initial segment of that sequence.  Each step
    starts from what the step before it returned: the decoder reads the
    downloaded bytes, the export takes the decoded segment, the request
    carries the exported WAV, and the reply with the transcription comes
    after the call of the model. *)
Theorem C1_pipeline_steps_in_order (u : Update) (st : State) :
  (exists n,
      pipeline_steps (trace_of (handle_audio u) st) = firstn n pipeline_order) /\
  (forall src r,
      In (EvFromFile src r) (trace_of (handle_audio u) st) ->
      exists f b,
        In (EvDownload f (Ok b)) (trace_of (handle_audio u) st) /\
        src = BytesIO.of_bytes b) /\
  (forall seg fmt r,
      In (EvExport seg fmt r) (trace_of (handle_audio u) st) ->
      exists src, In (EvFromFile src (Ok seg)) (trace_of (handle_audio u) st)) /\
  (forall mdl parts r,
      In (EvGenerateContent mdl parts r) (trace_of (handle_audio u) st) ->
      exists seg wav,
        In (EvExport seg "wav" (Ok wav)) (trace_of (handle_audio u) st) /\
        parts = [InlineData MIME_WAV (Base64.b64encode wav); Text PROMPT]) /\
  (forall m text r,
      In (EvReplyText m text r) (trace_of (handle_audio u) st) ->
      starts_with TRANSCRIPTION_HEADER text = true ->
      exists mdl parts r',
        In (EvGenerateContent mdl parts r') (trace_of (handle_audio u) st)).
Proof.
  remember (trace_of (handle_audio u) st) as tr eqn:Htr.
  revert Htr. run.
  all: intros ->; split;
    [ first [ now exists 0 | now exists 1 | now exists 2 | now exists 3
            | now exists 4 | now exists 5 ] |].
  all: repeat split; intros;
    match goal with H : In _ _ |- _ => in_cases H end;
    try discriminate;
    repeat eexists; pick.
Qed.

(** *** C2: the text of the reply *)

(** C2.  When the statements of the handler up to the reply complete and the
    model returned a response with text [t], the handler has sent to the
    user's message the text made of the header
    "📝 Transcription and Translation:", two line feeds, and then [t], and
    no other message that carries the header. *)
Theorem C2_reply_is_header_then_model_text
    (u : Update) (st : State) pm mdl parts resp t :
  result_of (handle_audio_reply u) st = Ok pm ->
  In (EvGenerateContent mdl parts (Ok resp)) (trace_of (handle_audio u) st) ->
  response_text resp = Ok t ->
  exists m sent,
    message u = Some m /\
    In (EvReplyText m (TRANSCRIPTION_HEADER +++ t) (Ok sent))
       (trace_of (handle_audio u) st) /\
    forall m' text r,
      In (EvReplyText m' text r) (trace_of (handle_audio u) st) ->
      starts_with TRANSCRIPTION_HEADER text = true ->
      text = TRANSCRIPTION_HEADER +++ t.
Proof.
  remember (trace_of (handle_audio u) st) as tr eqn:Htr.
  remember (result_of (handle_audio_reply u) st) as rr eqn:Hrr.
  revert Htr Hrr. run.
  all: intros -> -> Hok Hin Htext; try discriminate Hok.
  all: in_cases Hin; reconcile.
  all: do 2 eexists; split; [reflexivity |]; split; [pick |].
  all: intros m' text r' H Hs; in_cases H; try discriminate Hs; reflexivity.
Qed.

(** *** C3: what is sent to the model *)

(** C3.  [convert_to_wav] returns a stream that holds the whole WAV export
    of the decoded input and is positioned at its start, and every request
    a run of the handler sends to the model consists of one inline part of
    mime type "audio/wav", whose data is the base64 encoding of the whole
    WAV export of the decoding of the downloaded bytes, followed by the
    prompt. *)
Theorem C3_payload_is_whole_wav :
  (forall self b st seg wav,
      decode pydub b = Ok seg ->
      encode pydub seg "wav" = Ok wav ->
      result_of (convert_to_wav pydub self (BytesIO.of_bytes b)) st
      = Ok (BytesIO.mk wav 0 false) /\
      BytesIO.read (BytesIO.mk wav 0 false)
      = Ok (wav, BytesIO.mk wav (List.length wav) false)) /\
  (forall u st mdl parts r,
      In (EvGenerateContent mdl parts r) (trace_of (handle_audio u) st) ->
      exists f b seg wav,
        In (EvDownload f (Ok b)) (trace_of (handle_audio u) st) /\
        decode pydub b = Ok seg /\
        encode pydub seg "wav" = Ok wav /\
        parts = [InlineData "audio/wav" (Base64.b64encode wav); Text PROMPT]).
Proof.
  split.
  - intros self b st seg wav Hd He. split; [| reflexivity].
    unfold convert_to_wav, AudioSegment_from_file, AudioSegment_export,
      result_of, bind, perform, lift, ret.
    rewrite read_of_bytes. cbn [fst snd history]. rewrite Hd.
    cbn [fst snd history]. rewrite He. now rewrite write_empty.
  - intros u st mdl parts r H.
    destruct (api_call_inv u st mdl parts r H)
      as (f & b & seg & wav & Hin & _ & Hd & He & _ & Hp).
    now exists f, b, seg, wav.
Qed.

(** *** C5: failures are reported *)

(** C5.  When the download, the transcoding or the call of the model raises
    an exception [e] in a run of the audio handler, the handler sends to the
    user's message a text in which [str(e)] occurs; the user receives it
    whenever Telegram accepts the messages the handler sends. *)
Theorem C5_failure_is_reported (u : Update) (st : State) (e : Exception) :
  step_failed (trace_of (handle_audio u) st) e ->
  exists m text r,
    message u = Some m /\
    In (EvReplyText m text r) (trace_of (handle_audio u) st) /\
    contains (exc_str e) text /\
    ((forall h t, exists sent, send_message net h m t = Ok sent) ->
     exists sent, r = Ok sent).
Proof.
  remember (trace_of (handle_audio u) st) as tr eqn:Htr.
  revert Htr. run.
  all: intros -> [(f & H) | [(src & H) | [(seg & fmt & H) |
                  [(mdl & parts & H) | (mdl & parts & resp & H & Htext)]]]].
  all: in_cases H; reconcile.
  all: do 3 eexists; split; [reflexivity |].
  all: pick_and ltac:(split;
         [ first [ apply contains_suffix
                 | apply contains_app_l, contains_suffix ]
         | intros Hsend;
           first [ eexists; reflexivity
                 | exfalso;
                   match goal with
                   | Hr : send_message _ ?h _ ?t = Raise _ |- _ =>
                       destruct (Hsend h t) as [? Hok];
                       rewrite Hok in Hr; discriminate Hr
                   end ] ]).
Qed.

(** *** C8: [transcribe_audio] turns exceptions into text *)

(** C8.  [transcribe_audio] returns normally on every stream and in every
    state: its value is the text of the model's response, or, when reading
    the stream, the call of the model or the reading of the response's text
    raised [e], the text "Error transcribing audio: " followed by [str(e)].
    So when the call of the model raises [e] in a run of the handler, that
    text is sent under the transcription header, and if the sending
    succeeds the statements up to the reply have completed and the
    processing notice is deleted as on any successful run. *)
Theorem C8_transcribe_audio_never_raises :
  (forall self f st,
      exists s,
        result_of (transcribe_audio net self f) st = Ok s /\
        ((exists mdl parts resp,
             In (EvGenerateContent mdl parts (Ok resp))
                (trace_of (transcribe_audio net self f) st) /\
             response_text resp = Ok s) \/
         (exists e,
             s = "Error transcribing audio: " +++ exc_str e /\
             (BytesIO.read f = Raise e \/
              (exists mdl parts,
                  In (EvGenerateContent mdl parts (Raise e))
                     (trace_of (transcribe_audio net self f) st)) \/
              (exists mdl parts resp,
                  In (EvGenerateContent mdl parts (Ok resp))
                     (trace_of (transcribe_audio net self f) st) /\
                  response_text resp = Raise e))))) /\
  (forall u st mdl parts e,
      In (EvGenerateContent mdl parts (Raise e))
         (trace_of (handle_audio u) st) ->
      exists m r,
        message u = Some m /\
        In (EvReplyText m
              (TRANSCRIPTION_HEADER +++ "Error transcribing audio: "
                 +++ exc_str e) r)
           (trace_of (handle_audio u) st) /\
        forall sent, r = Ok sent ->
          exists pm r',
            result_of (handle_audio_reply u) st = Ok pm /\
            In (EvDelete pm r') (trace_of (handle_audio u) st)).
Proof.
  split.
  - intros self f st.
    unfold transcribe_audio, logger_error, trace_of, result_of, try_except,
      bind, perform, lift, ret.
    destruct (BytesIO.read f) as [[d f'] | e] eqn:Hread; cbn [fst snd history bot].
    + destruct (generate_content net (history st) MODEL_NAME
                  [InlineData MIME_WAV (Base64.b64encode d); Text PROMPT])
        as [resp | e] eqn:Hgen; cbn [fst snd history bot].
      * destruct (response_text resp) as [t | e] eqn:Htext;
          cbn [fst snd history bot];
          rewrite <- ?app_assoc, skipn_app_exact; eexists; (split; [reflexivity |]).
        -- left. do 3 eexists. split; [pick | assumption].
        -- right. exists e. split; [reflexivity |].
           right; right. do 3 eexists. split; [pick | assumption].
      * rewrite <- ?app_assoc, skipn_app_exact.
        eexists; split; [reflexivity |].
        right. exists e. split; [reflexivity |].
        right; left. do 2 eexists. pick.
    + rewrite <- ?app_assoc, skipn_app_exact.
      eexists; split; [reflexivity |].
      right. exists e. split; [reflexivity |]. now left.
  - intros u st mdl parts e.
    remember (trace_of (handle_audio u) st) as tr eqn:Htr.
    remember (result_of (handle_audio_reply u) st) as rr eqn:Hrr.
    revert Htr Hrr. run.
    all: intros -> -> H; in_cases H.
    all: do 2 eexists; split; [reflexivity |]; split; [pick |].
    all: intros sent Hsent; try discriminate Hsent.
    all: do 2 eexists; split; [reflexivity | pick].
Qed.

(** *** C9: the processing notice *)

(** C9.  A run of the audio handler calls [delete] exactly when the
    statements from the processing notice to the reply completed without
    raising, and what it asks to delete is the processing notice, which
    had been sent.  The notice is deleted when that call returns, and the
    handler then returns normally; when the call raises [e] the notice
    stays and the error notice for [e] is sent.  When the statements raise
    [e], [delete] is not called, and the error notice with [str(e)] is sent
    to the user's message as the last call of the run; the user receives
    it exactly when the handler returns normally. *)
Theorem C9_delete_called_iff_completed (u : Update) (st : State) :
  ((exists pm r, In (EvDelete pm r) (trace_of (handle_audio u) st)) <->
   (exists pm, result_of (handle_audio_reply u) st = Ok pm)) /\
  (forall pm r,
      In (EvDelete pm r) (trace_of (handle_audio u) st) ->
      result_of (handle_audio_reply u) st = Ok pm /\
      (exists m, In (EvReplyText m PROCESSING (Ok pm))
                    (trace_of (handle_audio u) st)) /\
      (r = Ok tt -> result_of (handle_audio u) st = Ok tt) /\
      (forall e, r = Raise e ->
         (forall pm', ~ In (EvDelete pm' (Ok tt))
                          (trace_of (handle_audio u) st)) /\
         exists m r', In (EvReplyText m (HANDLER_ERROR +++ exc_str e) r')
                         (trace_of (handle_audio u) st))) /\
  (forall e,
      result_of (handle_audio_reply u) st = Raise e ->
      (forall pm r, ~ In (EvDelete pm r) (trace_of (handle_audio u) st)) /\
      (forall m, message u = Some m ->
         exists r,
           In (EvReplyText m (HANDLER_ERROR +++ exc_str e) r)
              (trace_of (handle_audio u) st) /\
           last_event (trace_of (handle_audio u) st)
           = Some (EvReplyText m (HANDLER_ERROR +++ exc_str e) r) /\
           (result_of (handle_audio u) st = Ok tt <->
            exists sent, r = Ok sent))).
Proof.
  remember (trace_of (handle_audio u) st) as tr eqn:Htr.
  remember (result_of (handle_audio_reply u) st) as rr eqn:Hrr.
  remember (result_of (handle_audio u) st) as res eqn:Hres.
  revert Htr Hrr Hres. run.
  all: intros -> -> ->.
  all: repeat match goal with x : unit |- _ => destruct x end.
  all: split; [| split].
  all: try solve [ split;
                   [ intros (pm & r & H); in_cases H; eauto
                   | intros (pm & H); try discriminate H;
                     do 2 eexists; pick ] ].
  all: try solve [ intros pm r H; in_cases H;
                   (split; [reflexivity |]);
                   (split; [eexists; pick |]);
                   (split;
                    [ intros Hr; try discriminate Hr; reflexivity
                    | intros e' Hr; try discriminate Hr;
                      injection Hr as <-;
                      (split;
                       [ intros pm' H'; in_cases H'
                       | do 2 eexists; pick ]) ]) ].
  all: intros e' He; try discriminate He; injection He as <-.
  all: split;
    [ intros pm r H; in_cases H
    | intros m' Hm; try discriminate Hm; injection Hm as <-;
      (eexists; split; [pick |]);
      (split; [reflexivity |]);
      (split;
       [ intros Hr; try discriminate Hr; eexists; reflexivity
       | intros [sent Hr]; try discriminate Hr; reflexivity ]) ].
Qed.

(** *** C10: which attachment is used *)

(** C10.  When the message carries a voice note, the file the handler asks
    for is the voice note's, whether or not an audio attachment is present,
    and what it downloads and sends to the model is that file; the audio
    attachment's file is asked for only when there is no voice note. *)
Theorem C10_voice_note_has_priority (u : Update) (st : State) (m : Message) :
  message u = Some m ->
  (forall att r,
      In (EvGetFile att r) (trace_of (handle_audio u) st) ->
      match voice m with
      | Some v => att = OfVoice v
      | None => exists a, audio m = Some a /\ att = OfAudio a
      end) /\
  (forall f r,
      In (EvDownload f r) (trace_of (handle_audio u) st) ->
      exists att, In (EvGetFile att (Ok f)) (trace_of (handle_audio u) st)) /\
  (forall mdl parts r,
      In (EvGenerateContent mdl parts r) (trace_of (handle_audio u) st) ->
      exists att f b seg wav,
        In (EvGetFile att (Ok f)) (trace_of (handle_audio u) st) /\
        In (EvDownload f (Ok b)) (trace_of (handle_audio u) st) /\
        decode pydub b = Ok seg /\
        encode pydub seg "wav" = Ok wav /\
        parts = [InlineData MIME_WAV (Base64.b64encode wav); Text PROMPT]).
Proof.
  intros Hm. destruct u as [[m0 |]]; cbn in Hm;
    [injection Hm as -> | discriminate].
  remember (trace_of (handle_audio _) st) as tr eqn:Htr.
  revert Htr. run.
  all: intros ->; split; [| split].
  all: intros;
    match goal with H : In _ _ |- _ => in_cases H end.
  all: try reflexivity.
  all: try solve [ eexists; split; reflexivity ].
  all: try solve [ eexists; pick ].
  all: do 5 eexists; split; [pick |]; split; [pick |].
  all: repeat split; eassumption.
Qed.

(** *** C4: who decides on the translation *)

(** C4.  Every request to the model carries the prompt, which
    asks for the transcription alone when the audio is in English and for
    the parts labelled "Original: " and "Translation: " when it is not; and
    every message sent under the transcription header consists of the
    header and, unchanged, the text of the model's response (or the error
    text of [transcribe_audio]).  The handler itself neither looks at the
    language nor adds or checks a translation. *)
Theorem C4_prompt_asks_and_reply_relays (u : Update) (st : State) :
  (forall mdl parts r,
      In (EvGenerateContent mdl parts r) (trace_of (handle_audio u) st) ->
      In (Text PROMPT) parts /\
      occurs_in "If the audio is in English:" PROMPT = true /\
      occurs_in "- Provide ONLY the transcription, nothing else" PROMPT
      = true /\
      occurs_in "If the audio is NOT in English:" PROMPT = true /\
      occurs_in (ORIGINAL_LABEL +++ "[transcription in original language]")
        PROMPT = true /\
      occurs_in (TRANSLATION_LABEL +++ "[English translation]") PROMPT
      = true) /\
  (forall m text r,
      In (EvReplyText m text r) (trace_of (handle_audio u) st) ->
      starts_with TRANSCRIPTION_HEADER text = true ->
      exists body,
        text = TRANSCRIPTION_HEADER +++ body /\
        ((exists mdl parts resp,
             In (EvGenerateContent mdl parts (Ok resp))
                (trace_of (handle_audio u) st) /\
             response_text resp = Ok body) \/
         (exists e, body = TRANSCRIBE_ERROR +++ exc_str e))).
Proof.
  split.
  - intros mdl parts r H.
    destruct (api_call_inv u st mdl parts r H)
      as (f & b & seg & wav & _ & _ & _ & _ & _ & ->).
    split; [right; left; reflexivity |].
    repeat split; vm_compute; reflexivity.
  - remember (trace_of (handle_audio u) st) as tr eqn:Htr.
    revert Htr. run.
    all: intros -> m' text r' H Hs; in_cases H; try discriminate Hs.
    all: eexists; split; [reflexivity |].
    all: first [ left; do 3 eexists; split; [pick | eassumption]
               | right; eexists; reflexivity ].
Qed.

End Properties.

(** *** C7: the request depends on the audio alone *)
Section Determinism.

Variable pydub : Pydub.

(** C7.  Take two runs of the audio handler, with any two services, any two
    updates and any two states, so after any two histories of earlier
    updates.  If both download the same bytes, the requests they send to
    the model are the same: same model name, same parts.  And no run
    answers from an earlier result: a run that has exported the WAV calls
    the model with it. *)
Theorem C7_request_depends_on_audio_alone
    (net1 net2 : Network) (u1 u2 : Update) (st1 st2 : State) :
  (forall f1 f2 b mdl1 parts1 r1 mdl2 parts2 r2,
      In (EvDownload f1 (Ok b)) (trace_of (handle_audio pydub net1 u1) st1) ->
      In (EvDownload f2 (Ok b)) (trace_of (handle_audio pydub net2 u2) st2) ->
      In (EvGenerateContent mdl1 parts1 r1)
         (trace_of (handle_audio pydub net1 u1) st1) ->
      In (EvGenerateContent mdl2 parts2 r2)
         (trace_of (handle_audio pydub net2 u2) st2) ->
      mdl1 = mdl2 /\ parts1 = parts2) /\
  (forall seg wav,
      In (EvExport seg "wav" (Ok wav))
         (trace_of (handle_audio pydub net1 u1) st1) ->
      exists r,
        In (EvGenerateContent MODEL_NAME
              [InlineData MIME_WAV (Base64.b64encode wav); Text PROMPT] r)
           (trace_of (handle_audio pydub net1 u1) st1)).
Proof.
  split.
  - intros f1 f2 b mdl1 parts1 r1 mdl2 parts2 r2 Hd1 Hd2 Hg1 Hg2.
    destruct (api_call_inv pydub net1 u1 st1 _ _ _ Hg1)
      as (f & b1 & seg1 & wav1 & _ & Hu1 & Hdec1 & Henc1 & -> & ->).
    destruct (api_call_inv pydub net2 u2 st2 _ _ _ Hg2)
      as (f' & b2 & seg2 & wav2 & _ & Hu2 & Hdec2 & Henc2 & -> & ->).
    apply Hu1 in Hd1. apply Hu2 in Hd2. subst b1 b2.
    rewrite Hdec1 in Hdec2. injection Hdec2 as <-.
    rewrite Henc1 in Henc2. injection Henc2 as <-.
    split; reflexivity.
  - remember (trace_of (handle_audio pydub net1 u1) st1) as tr eqn:Htr.
    revert Htr. run.
    all: intros -> seg wav H; in_cases H.
    all: eexists; pick.
Qed.

End Determinism.

(** ** The handlers on concrete services *)

Ltac find_event := lazy; repeat first [left; reflexivity | right].

Example b64encode_Man :
  Base64.b64encode ["M"%byte; "a"%byte; "n"%byte] = "TWFu" /\
  Base64.b64encode ["M"%byte; "a"%byte] = "TWE=" /\
  Base64.b64encode ["M"%byte] = "TQ==" /\
  Base64.b64encode [xff; xfe; x00; x10] = "//4AEA==".
Proof. repeat split. Qed.

Example header_bytes :
  TRANSCRIPTION_HEADER
  = "📝 Transcription and Translation:" +++ nl +++ nl /\
  String.length TRANSCRIPTION_HEADER = 37.
Proof. split; reflexivity. Qed.

Example run_voice_ok :
  pipeline_steps
    (trace_of (handle_audio Demo.pydub Demo.ok_net Demo.voice_update) Demo.st0)
  = pipeline_order /\
  result_of (handle_audio Demo.pydub Demo.ok_net Demo.voice_update) Demo.st0
  = Ok tt /\
  In (EvReplyText (mkMessage 7 (Some Demo.voice_note) None)
        (TRANSCRIPTION_HEADER +++ "hello")
        (Ok (mkMessage 106 None None)))
     (trace_of (handle_audio Demo.pydub Demo.ok_net Demo.voice_update)
        Demo.st0).
Proof. repeat split; vm_compute; tauto. Qed.

Example run_download_fails :
  trace_of (handle_audio Demo.pydub Demo.no_download_net Demo.both_update)
    Demo.st0
  = [EvReplyText (mkMessage 8 (Some Demo.voice_note) (Some Demo.song))
       PROCESSING (Ok (mkMessage 100 None None));
     EvGetFile (OfVoice Demo.voice_note) (Ok Demo.voice_file);
     EvDownload Demo.voice_file (Raise Demo.timeout);
     EvLogError "Error processing audio: Timed out";
     EvReplyText (mkMessage 8 (Some Demo.voice_note) (Some Demo.song))
       (HANDLER_ERROR +++ "Timed out") (Ok (mkMessage 104 None None))].
Proof. vm_compute. reflexivity. Qed.

Example run_without_message :
  handle_audio Demo.pydub Demo.ok_net (mkUpdate None) Demo.st0
  = (Raise (none_has_no "reply_text"),
     mkState (bot Demo.st0)
       [EvLogError
          ("Error processing audio: " +++ exc_str (none_has_no "reply_text"))]).
Proof. vm_compute. reflexivity. Qed.

Example run_response_without_text :
  result_of
    (transcribe_audio (Demo.net (Ok Demo.ogg) (Ok Demo.blocked))
       new_AudioTranscriber (BytesIO.mk Demo.wav 0 false))
    Demo.st0
  = Ok "Error transcribing audio: no valid Part".
Proof. vm_compute. reflexivity. Qed.

(** The two properties of C6 are properties of the handlers, not of every
    computation: [__init__] assigns to the bot object, and a computation
    that returns the bot object depends on it. *)
Example init_assigns : ~ frames TelegramBot_init.
Proof.
  intros H. destruct (H Scenario.stocked) as [Hb _].
  discriminate Hb.
Qed.

Example get_self_reads : ~ agree get_self get_self.
Proof.
  intros H. destruct (H Scenario.stocked Demo.st0 eq_refl) as [Hr _].
  discriminate Hr.
Qed.

(** *** C4: the relayed text need not fit the language *)

(** C4, read as [relays_by_language].  Whatever language the downloaded
    bytes are in, there is a run that relays a text of the wrong form for
    it: for the same bytes the model may answer with the transcription
    alone or with both labelled parts, and the handler relays either answer
    as it is. *)
Lemma C4_counterexample : ~ exists non_english, relays_by_language non_english.
Proof.
  intros [L H]. destruct (L Demo.ogg) eqn:E.
  - assert (K : relay_matches_language (L Demo.ogg) "hola").
    { eapply (H Demo.pydub (Demo.net (Ok Demo.ogg) (Ok Demo.hola))
                Demo.voice_update Demo.st0); find_event. }
    rewrite E in K. destruct K as [K _]. vm_compute in K. discriminate K.
  - assert (K : relay_matches_language (L Demo.ogg)
                  ("Original: hola" +++ nl +++ "Translation: hello")).
    { eapply (H Demo.pydub (Demo.net (Ok Demo.ogg) (Ok Demo.bilingual))
                Demo.voice_update Demo.st0); find_event. }
    rewrite E in K. vm_compute in K. discriminate K.
Qed.

(** *** C5: a report that does not arrive *)

(** C5, read as: a reply with [str(e)] reaches the user.  The download
    breaks off and Telegram then refuses the error notice: the only message
    that reached the user is the processing notice. *)
Lemma C5_counterexample :
  step_failed
    (trace_of (handle_audio Demo.pydub Scenario.flaky_net Demo.voice_update)
       Demo.st0)
    Scenario.reset /\
  ~ exists m text sent,
      In (EvReplyText m text (Ok sent))
         (trace_of
            (handle_audio Demo.pydub Scenario.flaky_net Demo.voice_update)
            Demo.st0) /\
      contains (exc_str Scenario.reset) text.
Proof.
  split.
  - left. exists Demo.voice_file. find_event.
  - intros (m & text & sent & Hin & Hc).
    apply contains_occurs in Hc.
    vm_compute in Hin.
    repeat match type of Hin with
           | _ \/ _ => destruct Hin as [Hin | Hin]
           end;
      try contradiction; try discriminate Hin.
    injection Hin as _ <- _. vm_compute in Hc. discriminate Hc.
Qed.

(** *** C9: a notice that stays after a completed run *)

(** C9, read as: the notice is deleted if the statements complete.  They
    complete, Telegram refuses the deletion, and no deletion has
    succeeded. *)
Lemma C9_counterexample :
  (exists pm,
      result_of
        (handle_audio_reply Demo.pydub Scenario.no_delete_net
           Demo.voice_update) Demo.st0 = Ok pm) /\
  ~ exists pm,
      In (EvDelete pm (Ok tt))
         (trace_of
            (handle_audio Demo.pydub Scenario.no_delete_net
               Demo.voice_update) Demo.st0).
Proof.
  split.
  - eexists. vm_compute. reflexivity.
  - intros (pm & Hin). vm_compute in Hin.
    repeat match type of Hin with
           | _ \/ _ => destruct Hin as [Hin | Hin]
           end;
      try contradiction; discriminate Hin.
Qed.

(** ** The properties at concrete runs *)

Lemma C1_witness :
  In (EvReplyText (mkMessage 7 (Some Demo.voice_note) None)
        (TRANSCRIPTION_HEADER +++ "hello") (Ok (mkMessage 106 None None)))
     (trace_of (handle_audio Demo.pydub Demo.ok_net Demo.voice_update)
        Demo.st0) /\
  exists mdl parts r,
    In (EvGenerateContent mdl parts r)
       (trace_of (handle_audio Demo.pydub Demo.ok_net Demo.voice_update)
          Demo.st0).
Proof.
  assert (H : In (EvReplyText (mkMessage 7 (Some Demo.voice_note) None)
                    (TRANSCRIPTION_HEADER +++ "hello")
                    (Ok (mkMessage 106 None None)))
                 (trace_of
                    (handle_audio Demo.pydub Demo.ok_net Demo.voice_update)
                    Demo.st0)) by find_event.
  split; [exact H |].
  exact (proj2 (proj2 (proj2 (proj2
           (C1_pipeline_steps_in_order Demo.pydub Demo.ok_net
              Demo.voice_update Demo.st0)))) _ _ _ H eq_refl).
Defined.

Lemma C2_witness :
  exists m sent,
    message Demo.voice_update = Some m /\
    In (EvReplyText m (TRANSCRIPTION_HEADER +++ "hello") (Ok sent))
       (trace_of (handle_audio Demo.pydub Demo.ok_net Demo.voice_update)
          Demo.st0) /\
    forall m' text r,
      In (EvReplyText m' text r)
         (trace_of (handle_audio Demo.pydub Demo.ok_net Demo.voice_update)
            Demo.st0) ->
      starts_with TRANSCRIPTION_HEADER text = true ->
      text = TRANSCRIPTION_HEADER +++ "hello".
Proof.
  apply (C2_reply_is_header_then_model_text Demo.pydub Demo.ok_net
           Demo.voice_update Demo.st0 (mkMessage 100 None None)
           MODEL_NAME Demo.request Demo.hello "hello").
  - reflexivity.
  - find_event.
  - reflexivity.
Defined.

Lemma C3_witness :
  exists f b seg wav,
    In (EvDownload f (Ok b))
       (trace_of (handle_audio Demo.pydub Demo.ok_net Demo.audio_update)
          Demo.st1) /\
    decode Demo.pydub b = Ok seg /\
    encode Demo.pydub seg "wav" = Ok wav /\
    Demo.request
    = [InlineData "audio/wav" (Base64.b64encode wav); Text PROMPT].
Proof.
  apply (proj2 (C3_payload_is_whole_wav Demo.pydub Demo.ok_net)
           Demo.audio_update Demo.st1 MODEL_NAME Demo.request
           (Ok Demo.hello)).
  find_event.
Defined.

Lemma C4_witness :
  exists body,
    TRANSCRIPTION_HEADER +++ "hello" = TRANSCRIPTION_HEADER +++ body /\
    ((exists mdl parts resp,
         In (EvGenerateContent mdl parts (Ok resp))
            (trace_of (handle_audio Demo.pydub Demo.ok_net Demo.voice_update)
               Demo.st0) /\
         response_text resp = Ok body) \/
     (exists e, body = TRANSCRIBE_ERROR +++ exc_str e)).
Proof.
  apply (proj2 (C4_prompt_asks_and_reply_relays Demo.pydub Demo.ok_net
                  Demo.voice_update Demo.st0)
           (mkMessage 7 (Some Demo.voice_note) None)
           (TRANSCRIPTION_HEADER +++ "hello")
           (Ok (mkMessage 106 None None))).
  - find_event.
  - reflexivity.
Defined.

Lemma C5_witness :
  exists m text r,
    message Demo.both_update = Some m /\
    In (EvReplyText m text r)
       (trace_of
          (handle_audio Demo.pydub Demo.no_download_net Demo.both_update)
          Demo.st0) /\
    contains "Timed out" text /\
    ((forall h t,
         exists sent, send_message Demo.no_download_net h m t = Ok sent) ->
     exists sent, r = Ok sent).
Proof.
  apply (C5_failure_is_reported Demo.pydub Demo.no_download_net
           Demo.both_update Demo.st0 Demo.timeout).
  left. exists Demo.voice_file. find_event.
Defined.

Lemma C6_witness :
  trace_of (handle_audio Demo.pydub Demo.ok_net Demo.voice_update)
    Scenario.stocked
  = trace_of (handle_audio Demo.pydub Demo.ok_net Demo.voice_update) Demo.st0
  /\
  result_of (handle_audio Demo.pydub Demo.ok_net Demo.voice_update)
    Scenario.stocked
  = result_of (handle_audio Demo.pydub Demo.ok_net Demo.voice_update) Demo.st0
  /\
  bot (snd (handle_audio Demo.pydub Demo.ok_net Demo.voice_update
              Scenario.stocked))
  = bot Scenario.stocked.
Proof.
  split; [| split].
  - apply (proj2 (proj2 (proj2
             (C6_handlers_leave_state_unchanged Demo.pydub Demo.ok_net
                Demo.voice_update Demo.st0))) Scenario.stocked eq_refl).
  - apply (proj2 (proj2 (proj2
             (C6_handlers_leave_state_unchanged Demo.pydub Demo.ok_net
                Demo.voice_update Demo.st0))) Scenario.stocked eq_refl).
  - apply (proj1 (proj2 (proj2
             (C6_handlers_leave_state_unchanged Demo.pydub Demo.ok_net
                Demo.voice_update Scenario.stocked)))).
Defined.

Lemma C7_witness :
  In (EvGenerateContent MODEL_NAME Demo.request (Ok Demo.hello))
     (trace_of (handle_audio Demo.pydub Demo.ok_net Demo.voice_update)
        Demo.st0) /\
  In (EvGenerateContent MODEL_NAME Demo.request (Raise Demo.quota))
     (trace_of (handle_audio Demo.pydub Demo.no_model_net Demo.audio_update)
        Demo.st1) /\
  (MODEL_NAME = MODEL_NAME /\ Demo.request = Demo.request).
Proof.
  split; [find_event |]. split; [find_event |].
  apply (proj1 (C7_request_depends_on_audio_alone Demo.pydub
                  Demo.ok_net Demo.no_model_net
                  Demo.voice_update Demo.audio_update Demo.st0 Demo.st1)
           Demo.voice_file (mkFile "audio-1" "music/file_1.mp3") Demo.ogg
           MODEL_NAME Demo.request (Ok Demo.hello)
           MODEL_NAME Demo.request (Raise Demo.quota)).
  all: find_event.
Defined.

Lemma C8_witness :
  exists m r,
    message Demo.audio_update = Some m /\
    In (EvReplyText m
          (TRANSCRIPTION_HEADER +++ "Error transcribing audio: "
             +++ "429 quota exceeded") r)
       (trace_of (handle_audio Demo.pydub Demo.no_model_net Demo.audio_update)
          Demo.st0) /\
    forall sent, r = Ok sent ->
      exists pm r',
        result_of
          (handle_audio_reply Demo.pydub Demo.no_model_net Demo.audio_update)
          Demo.st0 = Ok pm /\
        In (EvDelete pm r')
           (trace_of
              (handle_audio Demo.pydub Demo.no_model_net Demo.audio_update)
              Demo.st0).
Proof.
  apply (proj2 (C8_transcribe_audio_never_raises Demo.pydub
                  Demo.no_model_net)
           Demo.audio_update Demo.st0 MODEL_NAME Demo.request Demo.quota).
  find_event.
Defined.

Lemma C9_witness :
  result_of (handle_audio_reply Demo.pydub Demo.ok_net Demo.voice_update)
    Demo.st0 = Ok (mkMessage 100 None None) /\
  exists m,
    In (EvReplyText m PROCESSING (Ok (mkMessage 100 None None)))
       (trace_of (handle_audio Demo.pydub Demo.ok_net Demo.voice_update)
          Demo.st0).
Proof.
  destruct (proj1 (proj2 (C9_delete_called_iff_completed
                            Demo.pydub Demo.ok_net Demo.voice_update
                            Demo.st0))
              (mkMessage 100 None None) (Ok tt)) as (H1 & H2 & _).
  - find_event.
  - split; [exact H1 | exact H2].
Defined.

Lemma C10_witness :
  (forall att r,
      In (EvGetFile att r)
         (trace_of (handle_audio Demo.pydub Demo.ok_net Demo.both_update)
            Demo.st0) ->
      att = OfVoice Demo.voice_note) /\
  exists att,
    In (EvGetFile att (Ok Demo.voice_file))
       (trace_of (handle_audio Demo.pydub Demo.ok_net Demo.both_update)
          Demo.st0).
Proof.
  destruct (C10_voice_note_has_priority Demo.pydub Demo.ok_net
              Demo.both_update Demo.st0
              (mkMessage 8 (Some Demo.voice_note) (Some Demo.song))
              eq_refl) as (H1 & H2 & _).
  split.
  - exact H1.
  - apply (H2 Demo.voice_file (Ok Demo.ogg)). find_event.
Defined.

(** ** The runs of the audio handler *)

Ltac solve_chosen :=
  unfold chosen_attachment;
  repeat match goal with
         | H : voice _ = _ |- _ => rewrite H
         | H : audio _ = _ |- _ => rewrite H
         end;
  reflexivity.

Ltac side_conditions :=
  first [ solve_chosen
        | eassumption
        | solve [ econstructor; eassumption ]
        | solve [ econstructor ] ].

Ltac close_run :=
  first
    [ solve [ eapply left_at_notice; side_conditions ]
    | solve [ eapply left_without_attachment; side_conditions ]
    | solve [ eapply left_at_get_file; side_conditions ]
    | solve [ eapply left_at_download; side_conditions ]
    | solve [ eapply left_at_decode; side_conditions ]
    | solve [ eapply left_at_export; side_conditions ]
    | solve [ eapply left_at_reply with (tevs := [_]); side_conditions ]
    | solve [ eapply left_at_reply with (tevs := [_; _]); side_conditions ]
    | solve [ eapply left_at_delete with (tevs := [_]); side_conditions ]
    | solve [ eapply left_at_delete with (tevs := [_; _]); side_conditions ]
    | solve [ eapply completed with (tevs := [_]); side_conditions ]
    | solve [ eapply completed with (tevs := [_; _]); side_conditions ] ].

Section Runs.

Variable pydub : Pydub.
Variable net : Network.

(** Every run of [handle_audio] on an update with a message is one of the
    runs of [AudioRun]. *)
Lemma handle_audio_run (u : Update) (st : State) (m : Message) :
  message u = Some m ->
  AudioRun pydub m (trace_of (handle_audio pydub net u) st)
    (result_of (handle_audio pydub net u) st).
Proof.
  intros Hm. destruct u as [[m0 |]]; cbn in Hm;
    [injection Hm as -> | discriminate].
  remember (trace_of (handle_audio pydub net _) st) as tr eqn:Htr.
  remember (result_of (handle_audio pydub net _) st) as res eqn:Hres.
  revert Htr Hres. run.
  all: intros -> ->.
  all: repeat match goal with x : unit |- _ => destruct x end.
  all: close_run.
Qed.

End Runs.

(** ** Further properties of the audio handler *)

Lemma append_inj_l (p a b : string) : p +++ a = p +++ b -> a = b.
Proof. induction p; simpl; intros H; [assumption | injection H as H; auto]. Qed.

(** Splits a run of [AudioRun], and the runs of [Transcribed] and
    [Reported] inside it, into its cases. *)
Ltac run_cases R :=
  destruct R;
  repeat match goal with
         | H : Transcribed _ _ _ |- _ => destruct H
         | H : Reported _ _ _ _ |- _ => destruct H
         end;
  cbn [app] in *.

(** [l = ?k ++ suffix] for a literal list [l]. *)
Ltac split_suffix :=
  first [ now exists []
        | now eexists [_]
        | now eexists [_; _]
        | now eexists [_; _; _]
        | now eexists [_; _; _; _]
        | now eexists [_; _; _; _; _]
        | now eexists [_; _; _; _; _; _]
        | now eexists [_; _; _; _; _; _; _]
        | now eexists [_; _; _; _; _; _; _; _]
        | now eexists [_; _; _; _; _; _; _; _; _] ].

Section MoreOnHandleAudio.

Variable pydub : Pydub.
Variable net : Network.

Abbreviation handle_audio := (handle_audio pydub net).

Lemma handle_audio_no_message_run (u : Update) (st : State) :
  message u = None ->
  handle_audio u st
  = (Raise (none_has_no "reply_text"),
     mkState (bot st)
       (history st
        ++ [EvLogError
              ("Error processing audio: "
                 +++ exc_str (none_has_no "reply_text"))])).
Proof.
  intros Hm. destruct u as [[m |]]; [discriminate Hm | reflexivity].
Qed.

Lemma handle_audio_no_message_trace (u : Update) (st : State) :
  message u = None ->
  trace_of (handle_audio u) st
  = [EvLogError
       ("Error processing audio: " +++ exc_str (none_has_no "reply_text"))].
Proof.
  intros Hm. unfold trace_of.
  rewrite (handle_audio_no_message_run u st Hm).
  cbn [snd history]. now rewrite skipn_app_exact.
Qed.

(** An update without a message: the handler calls no service, sends
    nothing and deletes nothing; it logs the [AttributeError] of the [try]
    block and raises the one of the [except] block. *)
Theorem handle_audio_without_message (u : Update) (st : State) :
  message u = None ->
  result_of (handle_audio u) st = Raise (none_has_no "reply_text") /\
  exc_class (none_has_no "reply_text") = "AttributeError" /\
  forall ev,
    In ev (trace_of (handle_audio u) st) ->
    ev = EvLogError
           ("Error processing audio: 'NoneType' object has no attribute 'reply_text'").
Proof.
  intros Hm. rewrite (handle_audio_no_message_trace u st Hm).
  unfold result_of. rewrite (handle_audio_no_message_run u st Hm).
  repeat split. intros ev [<- | []]. reflexivity.
Qed.

(** A message with neither a voice note nor an audio attachment: the run
    is the processing notice, the log entry and the error notice, and the
    error is the one of the notice, if it could not be sent, or the
    [AttributeError] of [update.message.audio.get_file]. *)
Theorem handle_audio_without_attachment (u : Update) (st : State) m :
  message u = Some m ->
  voice m = None ->
  audio m = None ->
  exists r e r',
    trace_of (handle_audio u) st
    = [EvReplyText m PROCESSING r;
       EvLogError ("Error processing audio: " +++ exc_str e);
       EvReplyText m (HANDLER_ERROR +++ exc_str e) r'] /\
    e = match r with
        | Ok _ => none_has_no "get_file"
        | Raise e0 => e0
        end.
Proof.
  intros Hm Hv Ha.
  pose proof (handle_audio_run pydub net u st m Hm) as R.
  remember (trace_of (handle_audio u) st) as tr eqn:Htr.
  remember (result_of (handle_audio u) st) as res eqn:Hres.
  clear Htr Hres.
  assert (Hc : chosen_attachment m = None)
    by (unfold chosen_attachment; now rewrite Hv, Ha).
  run_cases R; try congruence.
  all: do 3 eexists; split; reflexivity.
Qed.


(** When the deletion of the processing notice raises [e], the user has
    already been sent the transcription and is then also sent the error
    notice for [e]. *)
Theorem handle_audio_delete_fails (u : Update) (st : State) m pm e :
  message u = Some m ->
  In (EvDelete pm (Raise e)) (trace_of (handle_audio u) st) ->
  exists t sent r,
    In (EvReplyText m (TRANSCRIPTION_HEADER +++ t) (Ok sent))
       (trace_of (handle_audio u) st) /\
    In (EvReplyText m (HANDLER_ERROR +++ exc_str e) r)
       (trace_of (handle_audio u) st).
Proof.
  intros Hm.
  pose proof (handle_audio_run pydub net u st m Hm) as R.
  remember (trace_of (handle_audio u) st) as tr eqn:Htr.
  remember (result_of (handle_audio u) st) as res eqn:Hres.
  clear Htr Hres.
  run_cases R; intros Hin; in_cases Hin.
  all: do 3 eexists; split; pick.
Qed.

(** Every message a run sends is a reply to the incoming message and is
    the processing notice, the header followed by a text, or the error
    notice; a run sends at most three messages. *)
Theorem handle_audio_replies (u : Update) (st : State) m :
  message u = Some m ->
  (forall m' text r,
      In (EvReplyText m' text r) (trace_of (handle_audio u) st) ->
      m' = m /\
      (text = PROCESSING \/
       (exists t, text = TRANSCRIPTION_HEADER +++ t) \/
       (exists e, text = HANDLER_ERROR +++ exc_str e))) /\
  List.length (filter is_reply (trace_of (handle_audio u) st)) <= 3.
Proof.
  intros Hm.
  pose proof (handle_audio_run pydub net u st m Hm) as R.
  remember (trace_of (handle_audio u) st) as tr eqn:Htr.
  remember (result_of (handle_audio u) st) as res eqn:Hres.
  clear Htr Hres.
  run_cases R.
  all: split; [| cbn; lia].
  all: intros m' text r Hin; in_cases Hin; (split; [reflexivity |]).
  all: first [ left; reflexivity
             | right; left; eexists; reflexivity
             | right; right; eexists; reflexivity
             | right; right; exists (none_has_no "get_file"); reflexivity ].
Qed.

(** The processing notice is the first call of every run, before the
    attachment is looked at, and it is sent once. *)
Theorem handle_audio_notice_first (u : Update) (st : State) m :
  message u = Some m ->
  exists r k,
    trace_of (handle_audio u) st = EvReplyText m PROCESSING r :: k /\
    forall m' r', ~ In (EvReplyText m' PROCESSING r') k.
Proof.
  intros Hm.
  pose proof (handle_audio_run pydub net u st m Hm) as R.
  remember (trace_of (handle_audio u) st) as tr eqn:Htr.
  remember (result_of (handle_audio u) st) as res eqn:Hres.
  clear Htr Hres.
  run_cases R.
  all: do 2 eexists; split; [reflexivity |].
  all: intros m' r' Hin; in_cases Hin.
Qed.

(** An error notice is the last call of its run and comes directly after
    the log entry for the same error text. *)
Theorem handle_audio_logs_before_notice (u : Update) (st : State) m' s r :
  In (EvReplyText m' (HANDLER_ERROR +++ s) r) (trace_of (handle_audio u) st) ->
  exists k,
    trace_of (handle_audio u) st
    = k ++ [EvLogError ("Error processing audio: " +++ s);
            EvReplyText m' (HANDLER_ERROR +++ s) r].
Proof.
  destruct (message u) as [m |] eqn:Hm.
  - pose proof (handle_audio_run pydub net u st m Hm) as R.
    remember (trace_of (handle_audio u) st) as tr eqn:Htr.
    remember (result_of (handle_audio u) st) as res eqn:Hres.
    clear Htr Hres.
    run_cases R; intros Hin; in_cases Hin.
    all: repeat match goal with
           | H : _ = HANDLER_ERROR +++ _ |- _ =>
               first [ discriminate H | apply append_inj_l in H; subst ]
           | H : HANDLER_ERROR +++ _ = _ |- _ =>
               first [ discriminate H | apply append_inj_l in H; subst ]
           end.
    all: split_suffix.
  - rewrite (handle_audio_no_message_trace u st Hm).
    intros Hin; in_cases Hin.
Qed.

(** If the message has an attachment and no call of the run other than the
    call of the model raises, the run sends the header followed by a text,
    ends with the deletion of the processing notice, and returns
    normally. *)
Theorem handle_audio_completes (u : Update) (st : State) m :
  message u = Some m ->
  chosen_attachment m <> None ->
  forallb (fun ev => negb (raised ev) || is_model_call ev)
    (trace_of (handle_audio u) st) = true ->
  result_of (handle_audio u) st = Ok tt /\
  exists pm t sent,
    In (EvReplyText m PROCESSING (Ok pm)) (trace_of (handle_audio u) st) /\
    In (EvReplyText m (TRANSCRIPTION_HEADER +++ t) (Ok sent))
       (trace_of (handle_audio u) st) /\
    last_event (trace_of (handle_audio u) st) = Some (EvDelete pm (Ok tt)).
Proof.
  intros Hm.
  pose proof (handle_audio_run pydub net u st m Hm) as R.
  remember (trace_of (handle_audio u) st) as tr eqn:Htr.
  remember (result_of (handle_audio u) st) as res eqn:Hres.
  clear Htr Hres.
  run_cases R; intros Hc Hall; try congruence; try discriminate Hall.
  all: split; [reflexivity |].
  all: do 3 eexists; split; [pick |]; split; [pick | reflexivity].
Qed.

(** A run calls the model at most once. *)
Lemma handle_audio_model_calls (u : Update) (st : State) :
  count_model_calls (trace_of (handle_audio u) st) <= 1.
Proof.
  destruct (message u) as [m |] eqn:Hm.
  - pose proof (handle_audio_run pydub net u st m Hm) as R.
    remember (trace_of (handle_audio u) st) as tr eqn:Htr.
    remember (result_of (handle_audio u) st) as res eqn:Hres.
    clear Htr Hres.
    run_cases R; cbn; lia.
  - rewrite (handle_audio_no_message_trace u st Hm). cbn; lia.
Qed.

End MoreOnHandleAudio.

(** ** The methods of the transcriber *)
Section MoreOnTranscriber.

Variable pydub : Pydub.
Variable net : Network.

(** On a closed stream [transcribe_audio] does not call the model: it logs
    the [ValueError] of the read and returns its text as the
    transcription. *)
Theorem transcribe_audio_closed_stream
    (self : AudioTranscriber) (f : BytesIO.t) (st : State) :
  BytesIO.closed f = true ->
  result_of (transcribe_audio net self f) st
  = Ok ("Error transcribing audio: I/O operation on closed file.") /\
  trace_of (transcribe_audio net self f) st
  = [EvLogError "Transcription error: I/O operation on closed file."].
Proof.
  intros Hc.
  unfold transcribe_audio, logger_error, trace_of, result_of, try_except,
    bind, perform, lift, ret, BytesIO.read.
  rewrite Hc. cbn [fst snd history bot].
  now rewrite skipn_app_exact.
Qed.

(** On an open stream [transcribe_audio] calls the model exactly once, and
    what it sends is the base64 of the bytes from the position of the
    stream to its end: bytes before the position are not sent. *)
Theorem transcribe_audio_sends_unread
    (self : AudioTranscriber) (f : BytesIO.t) (st : State) :
  BytesIO.closed f = false ->
  exists r k,
    trace_of (transcribe_audio net self f) st
    = EvGenerateContent "gemini-1.5-pro"
        [InlineData "audio/wav"
           (Base64.b64encode (skipn (BytesIO.pos f) (BytesIO.buf f)));
         Text PROMPT] r :: k /\
    count_model_calls k = 0.
Proof.
  intros Hc.
  unfold transcribe_audio, logger_error, trace_of, result_of, try_except,
    bind, perform, lift, ret, BytesIO.read.
  rewrite Hc. cbn [fst snd history bot].
  destruct (generate_content net (history st) MODEL_NAME _)
    as [resp | e]; cbn [fst snd history bot].
  - destruct (response_text resp) as [t | e]; cbn [fst snd history bot];
      rewrite <- ?app_assoc, skipn_app_exact;
      do 2 eexists; split; reflexivity.
  - rewrite <- ?app_assoc, skipn_app_exact.
    do 2 eexists; split; reflexivity.
Qed.

(** [process_audio] raises exactly what the conversion raises, and then
    the model is not called; when it returns, the model has been called
    exactly once.  Failures of the model never make it raise. *)
Theorem process_audio_raises_on_conversion_only
    (self : AudioTranscriber) (f : BytesIO.t) (st : State) :
  (forall e,
      result_of (process_audio pydub net self f) st = Raise e ->
      count_model_calls (trace_of (process_audio pydub net self f) st) = 0 /\
      (In (EvFromFile f (Raise e))
          (trace_of (process_audio pydub net self f) st) \/
       exists seg,
         In (EvExport seg "wav" (Raise e))
            (trace_of (process_audio pydub net self f) st))) /\
  (forall s,
      result_of (process_audio pydub net self f) st = Ok s ->
      count_model_calls (trace_of (process_audio pydub net self f) st) = 1).
Proof.
  remember (trace_of (process_audio pydub net self f) st) as tr eqn:Htr.
  remember (result_of (process_audio pydub net self f) st) as res eqn:Hres.
  revert Htr Hres.
  unfold process_audio, convert_to_wav, AudioSegment_from_file,
    AudioSegment_export.
  destruct (BytesIO.read f) as [[d f'] | e0] eqn:Hread.
  all: run.
  all: intros -> ->; split; intros x Hx; try discriminate Hx.
  all: try reflexivity.
  all: injection Hx as <-; split; [reflexivity |].
  all: first [ left; pick | right; eexists; pick ].
Qed.

End MoreOnTranscriber.

(** ** The command handlers *)
Section Commands.

Variable net : Network.

Lemma command_run (text : string) (u : Update) (st : State) :
  trace_of (m <- update_message u "reply_text" ;;
            reply_text net m text ;;; ret tt) st
  = match message u with
    | Some m => [EvReplyText m text (send_message net (history st) m text)]
    | None => []
    end /\
  result_of (m <- update_message u "reply_text" ;;
             reply_text net m text ;;; ret tt) st
  = match message u with
    | Some m =>
        match send_message net (history st) m text with
        | Ok _ => Ok tt
        | Raise e => Raise e
        end
    | None => Raise (none_has_no "reply_text")
    end.
Proof.
  unfold trace_of, result_of, update_message, reply_text, bind, perform,
    ret, raise.
  destruct (message u) as [m |]; cbn [fst snd history bot].
  - destruct (send_message net (history st) m text);
      cbn [fst snd history bot]; now rewrite skipn_app_exact.
  - split; [| reflexivity].
    rewrite <- (app_nil_r (history st)) at 2. apply skipn_app_exact.
Qed.

(** [/start] and [/help] make one call, the reply with their text to the
    incoming message, and nothing else: no file is fetched, the model is
    not called, nothing is deleted or logged.  They have no [try]: they
    raise what the reply raises, and on an update without a message they
    raise an [AttributeError] without any call. *)
Theorem commands_reply_once (u : Update) (st : State) :
  (forall m, message u = Some m ->
     exists r,
       trace_of (start net u) st = [EvReplyText m welcome_message r] /\
       result_of (start net u) st
       = match r with Ok _ => Ok tt | Raise e => Raise e end) /\
  (forall m, message u = Some m ->
     exists r,
       trace_of (help net u) st = [EvReplyText m help_message r] /\
       result_of (help net u) st
       = match r with Ok _ => Ok tt | Raise e => Raise e end) /\
  (message u = None ->
     trace_of (start net u) st = [] /\
     trace_of (help net u) st = [] /\
     result_of (start net u) st = Raise (none_has_no "reply_text") /\
     result_of (help net u) st = Raise (none_has_no "reply_text")).
Proof.
  destruct (command_run welcome_message u st) as [Ts Rs].
  destruct (command_run help_message u st) as [Th Rh].
  fold (start net u) in Ts, Rs. fold (help net u) in Th, Rh.
  split; [| split].
  - intros m Hm. rewrite Hm in Ts, Rs. eexists; split; eassumption.
  - intros m Hm. rewrite Hm in Th, Rh. eexists; split; eassumption.
  - intros Hm. rewrite Hm in *. auto.
Qed.

End Commands.

(** ** base64 *)

Lemma triples_ind {A} (P : list A -> Prop) :
  P [] ->
  (forall a, P [a]) ->
  (forall a b, P [a; b]) ->
  (forall a b c l, P l -> P (a :: b :: c :: l)) ->
  forall l, P l.
Proof.
  intros H0 H1 H2 H3.
  assert (H : forall l, P l /\ (forall a, P (a :: l))
                        /\ (forall a b, P (a :: b :: l))).
  { induction l as [| x l (IH0 & IH1 & IH2)].
    - auto.
    - repeat split; auto. }
  intros l. apply H.
Qed.

(** The payload is four characters for every three bytes of audio, the
    last group padded: its length is [4 * ceil (n / 3)]. *)
Theorem b64encode_length (s : bytes) :
  String.length (Base64.b64encode s) = 4 * ((List.length s + 2) / 3).
Proof.
  induction s as [| a | a b | a b c l IH] using triples_ind;
    try reflexivity.
  cbn [Base64.b64encode String.length List.length]. rewrite IH.
  replace (S (S (S (List.length l))) + 2) with (List.length l + 2 + 1 * 3)
    by lia.
  rewrite Nat.div_add by lia. lia.
Qed.

Lemma digit_in_alphabet (x : N) :
  In (Base64.digit (N.land x 63)) Base64.alphabet.
Proof.
  unfold Base64.digit. apply nth_In.
  change (List.length Base64.alphabet) with 64.
  change 63%N with (N.ones 6). rewrite N.land_ones.
  assert (x mod 2 ^ 6 < 2 ^ 6)%N by (apply N.mod_lt; discriminate).
  change (2 ^ 6)%N with 64%N in *. lia.
Qed.

(** The payload is text: each of its characters is one of the 64
    characters of the base64 alphabet or the padding character, so it is
    ASCII and its [decode()] cannot fail. *)
Theorem b64encode_alphabet (s : bytes) (c : ascii) :
  In c (list_ascii_of_string (Base64.b64encode s)) ->
  (In c Base64.alphabet \/ c = Base64.pad) /\ nat_of_ascii c < 128.
Proof.
  assert (Hascii : forall c, In c Base64.alphabet \/ c = Base64.pad ->
                             nat_of_ascii c < 128).
  { intros c0 [H | ->]; [| vm_compute; lia].
    revert c0 H. apply Forall_forall.
    vm_compute. repeat constructor. }
  intros H. split; [| apply Hascii]; revert H.
  all: induction s as [| a | a b | a b c' l IH] using triples_ind;
    cbn [Base64.b64encode list_ascii_of_string In Base64.sextet];
    intros H;
    repeat match type of H with
           | _ \/ _ => destruct H as [H | H]
           end;
    try contradiction; try (now right); try (now apply IH).
  all: subst c; left; apply digit_in_alphabet.
Qed.

(** ** Serving a sequence of updates *)
Section MoreOnApplication.

Variable pydub : Pydub.
Variable net : Network.

Lemma frames_invoke (h : Handler) (u : Update) : frames (invoke pydub net h u).
Proof.
  destruct h; [apply frames_start | apply frames_help
               | apply frames_handle_audio].
Qed.

Lemma count_model_calls_app (a b : list Event) :
  count_model_calls (a ++ b) = count_model_calls a + count_model_calls b.
Proof. unfold count_model_calls. now rewrite filter_app, length_app. Qed.

Lemma invoke_model_calls (h : Handler) (u : Update) (st : State) :
  count_model_calls (trace_of (invoke pydub net h u) st)
  <= if is_audio_handler h then 1 else 0.
Proof.
  destruct h; cbn [invoke is_audio_handler].
  - destruct (command_run net welcome_message u st) as [T _].
    fold (start net u) in T. rewrite T. destruct (message u); cbn; lia.
  - destruct (command_run net help_message u st) as [T _].
    fold (help net u) in T. rewrite T. destruct (message u); cbn; lia.
  - apply handle_audio_model_calls.
Qed.

(** Whatever updates are served, in whatever order and with whatever
    outcome, the bot object at the end is the one at the start, with its
    transcriber and every attribute the two objects held, and the history
    at the end extends the history at the start. *)
Theorem serve_keeps_the_bot (updates : list (Handler * Update)) (st : State) :
  bot (serve pydub net updates st) = bot st /\
  exists evs, history (serve pydub net updates st) = history st ++ evs.
Proof.
  revert st. induction updates as [| [h u] rest IH]; intros st.
  - split; [reflexivity | exists []; now rewrite app_nil_r].
  - cbn [serve].
    destruct (IH (snd (invoke pydub net h u st))) as [Hb [evs Hh]].
    destruct (frames_invoke h u st) as [Hb' [evs' Hh']].
    split; [congruence |].
    exists (evs' ++ evs). now rewrite Hh, Hh', app_assoc.
Qed.

(** The model is called at most once for each audio update served and
    never for a command. *)
Theorem serve_model_calls (updates : list (Handler * Update)) (st : State) :
  count_model_calls (history (serve pydub net updates st))
  <= count_model_calls (history st) + count_audio updates.
Proof.
  revert st. induction updates as [| [h u] rest IH]; intros st.
  - cbn. lia.
  - cbn [serve].
    specialize (IH (snd (invoke pydub net h u st))).
    destruct (frames_trace (invoke pydub net h u) st (frames_invoke h u))
      as [_ Hh].
    rewrite Hh, count_model_calls_app in IH.
    pose proof (invoke_model_calls h u st) as Hc.
    unfold count_audio in *. cbn [filter fst].
    destruct (is_audio_handler h); cbn [List.length]; lia.
Qed.

End MoreOnApplication.

(** ** The further properties at concrete runs *)

Lemma handle_audio_without_message_witness :
  result_of (handle_audio Demo.pydub Demo.ok_net (mkUpdate None)) Demo.st1
  = Raise (none_has_no "reply_text") /\
  exc_class (none_has_no "reply_text") = "AttributeError" /\
  forall ev,
    In ev (trace_of (handle_audio Demo.pydub Demo.ok_net (mkUpdate None))
             Demo.st1) ->
    ev = EvLogError
           ("Error processing audio: 'NoneType' object has no attribute 'reply_text'").
Proof.
  exact (handle_audio_without_message Demo.pydub Demo.ok_net (mkUpdate None)
           Demo.st1 eq_refl).
Defined.

Lemma handle_audio_without_attachment_witness :
  exists r e r',
    trace_of (handle_audio Demo.pydub Demo.ok_net Scenario.bare_update)
      Demo.st0
    = [EvReplyText Scenario.bare_message PROCESSING r;
       EvLogError ("Error processing audio: " +++ exc_str e);
       EvReplyText Scenario.bare_message (HANDLER_ERROR +++ exc_str e) r'] /\
    e = match r with
        | Ok _ => none_has_no "get_file"
        | Raise e0 => e0
        end.
Proof.
  exact (handle_audio_without_attachment Demo.pydub Demo.ok_net
           Scenario.bare_update Demo.st0 Scenario.bare_message
           eq_refl eq_refl eq_refl).
Defined.


Lemma handle_audio_delete_fails_witness :
  exists t sent r,
    In (EvReplyText Scenario.voice_message (TRANSCRIPTION_HEADER +++ t)
          (Ok sent))
       (trace_of
          (handle_audio Demo.pydub Scenario.no_delete_net Demo.voice_update)
          Demo.st0) /\
    In (EvReplyText Scenario.voice_message
          (HANDLER_ERROR +++ exc_str Demo.timeout) r)
       (trace_of
          (handle_audio Demo.pydub Scenario.no_delete_net Demo.voice_update)
          Demo.st0).
Proof.
  apply (handle_audio_delete_fails Demo.pydub Scenario.no_delete_net
           Demo.voice_update Demo.st0 Scenario.voice_message
           (mkMessage 100 None None) Demo.timeout eq_refl).
  find_event.
Defined.

Lemma handle_audio_replies_witness :
  (forall m' text r,
      In (EvReplyText m' text r)
         (trace_of (handle_audio Demo.pydub Demo.ok_net Demo.voice_update)
            Demo.st0) ->
      m' = Scenario.voice_message /\
      (text = PROCESSING \/
       (exists t, text = TRANSCRIPTION_HEADER +++ t) \/
       (exists e, text = HANDLER_ERROR +++ exc_str e))) /\
  List.length
    (filter is_reply
       (trace_of (handle_audio Demo.pydub Demo.ok_net Demo.voice_update)
          Demo.st0)) <= 3.
Proof.
  exact (handle_audio_replies Demo.pydub Demo.ok_net Demo.voice_update
           Demo.st0 Scenario.voice_message eq_refl).
Defined.

Lemma handle_audio_notice_first_witness :
  exists r k,
    trace_of (handle_audio Demo.pydub Demo.no_download_net Demo.voice_update)
      Demo.st1
    = EvReplyText Scenario.voice_message PROCESSING r :: k /\
    forall m' r', ~ In (EvReplyText m' PROCESSING r') k.
Proof.
  exact (handle_audio_notice_first Demo.pydub Demo.no_download_net
           Demo.voice_update Demo.st1 Scenario.voice_message eq_refl).
Defined.

Lemma handle_audio_logs_before_notice_witness :
  exists k,
    trace_of (handle_audio Demo.pydub Demo.no_download_net Demo.voice_update)
      Demo.st0
    = k ++ [EvLogError ("Error processing audio: " +++ "Timed out");
            EvReplyText Scenario.voice_message
              (HANDLER_ERROR +++ "Timed out")
              (Ok (mkMessage 104 None None))].
Proof.
  apply (handle_audio_logs_before_notice Demo.pydub Demo.no_download_net
           Demo.voice_update Demo.st0 Scenario.voice_message "Timed out"
           (Ok (mkMessage 104 None None))).
  find_event.
Defined.

Lemma handle_audio_completes_witness :
  result_of (handle_audio Demo.pydub Demo.no_model_net Demo.audio_update)
    Demo.st0 = Ok tt /\
  exists pm t sent,
    In (EvReplyText (mkMessage 9 None (Some Demo.song)) PROCESSING (Ok pm))
       (trace_of (handle_audio Demo.pydub Demo.no_model_net Demo.audio_update)
          Demo.st0) /\
    In (EvReplyText (mkMessage 9 None (Some Demo.song))
          (TRANSCRIPTION_HEADER +++ t) (Ok sent))
       (trace_of (handle_audio Demo.pydub Demo.no_model_net Demo.audio_update)
          Demo.st0) /\
    last_event
      (trace_of (handle_audio Demo.pydub Demo.no_model_net Demo.audio_update)
         Demo.st0)
    = Some (EvDelete pm (Ok tt)).
Proof.
  apply (handle_audio_completes Demo.pydub Demo.no_model_net
           Demo.audio_update Demo.st0 (mkMessage 9 None (Some Demo.song))
           eq_refl).
  - discriminate.
  - vm_compute. reflexivity.
Defined.

Lemma transcribe_audio_closed_stream_witness :
  result_of
    (transcribe_audio Demo.ok_net new_AudioTranscriber Scenario.closed_stream)
    Demo.st0
  = Ok ("Error transcribing audio: I/O operation on closed file.") /\
  trace_of
    (transcribe_audio Demo.ok_net new_AudioTranscriber Scenario.closed_stream)
    Demo.st0
  = [EvLogError "Transcription error: I/O operation on closed file."].
Proof.
  exact (transcribe_audio_closed_stream Demo.ok_net new_AudioTranscriber
           Scenario.closed_stream Demo.st0 eq_refl).
Defined.

Lemma transcribe_audio_sends_unread_witness :
  exists r k,
    trace_of
      (transcribe_audio Demo.ok_net new_AudioTranscriber Scenario.half_read)
      Demo.st0
    = EvGenerateContent "gemini-1.5-pro"
        [InlineData "audio/wav" (Base64.b64encode Demo.ogg); Text PROMPT] r
        :: k /\
    count_model_calls k = 0.
Proof.
  exact (transcribe_audio_sends_unread Demo.ok_net new_AudioTranscriber
           Scenario.half_read Demo.st0 eq_refl).
Defined.

Lemma process_audio_raises_on_conversion_only_witness :
  count_model_calls
    (trace_of
       (process_audio Scenario.deaf_pydub Demo.ok_net new_AudioTranscriber
          (BytesIO.of_bytes Demo.ogg)) Demo.st0) = 0 /\
  (In (EvFromFile (BytesIO.of_bytes Demo.ogg) (Raise Scenario.undecodable))
      (trace_of
         (process_audio Scenario.deaf_pydub Demo.ok_net new_AudioTranscriber
            (BytesIO.of_bytes Demo.ogg)) Demo.st0) \/
   exists seg,
     In (EvExport seg "wav" (Raise Scenario.undecodable))
        (trace_of
           (process_audio Scenario.deaf_pydub Demo.ok_net new_AudioTranscriber
              (BytesIO.of_bytes Demo.ogg)) Demo.st0)).
Proof.
  exact (proj1 (process_audio_raises_on_conversion_only Scenario.deaf_pydub
                  Demo.ok_net new_AudioTranscriber (BytesIO.of_bytes Demo.ogg)
                  Demo.st0)
           Scenario.undecodable eq_refl).
Defined.

Lemma commands_reply_once_witness :
  exists r,
    trace_of (start Scenario.offline_net Scenario.bare_update) Demo.st0
    = [EvReplyText Scenario.bare_message welcome_message r] /\
    result_of (start Scenario.offline_net Scenario.bare_update) Demo.st0
    = match r with Ok _ => Ok tt | Raise e => Raise e end.
Proof.
  exact (proj1 (commands_reply_once Scenario.offline_net Scenario.bare_update
                  Demo.st0)
           Scenario.bare_message eq_refl).
Defined.

Lemma b64encode_alphabet_witness :
  (In "U"%char Base64.alphabet \/ "U"%char = Base64.pad) /\
  nat_of_ascii "U" < 128.
Proof.
  apply (b64encode_alphabet Demo.wav "U"%char).
  vm_compute. left. reflexivity.
Defined.
